(** * FleetLink front end: validation engine, ride duration, submission flows

    A shallow embedding of the JavaScript sources

      - [utils/helpers.js]     ([validateForm], [calculateRideDuration],
                                [isValidPincode], [getVehicleType],
                                [debounce], [throttle]),
      - the standalone copy of [validateForm],
      - [services/api.js]      (response interceptor, [getErrorMessage]),
      - [pages/AddVehicle.jsx] ([handleInputChange], [handleSubmit] and its
                                timer, [handleReset]),
      - [pages/SearchBooking.jsx] ([handleSearchInputChange], [handleSearch]),

    together with the part of the JavaScript run time these functions rely
    on: strings, IEEE-754 binary64 numbers, the conversions between them,
    and plain objects used as dictionaries.

    Modelling conventions.

    - A JavaScript string is a [string]; a character stands for the UTF-16
      code unit of the same number, so the model covers the strings whose
      code units are below 256.
    - A JavaScript number is a [jsnum]: [NaN], an infinity, or a finite
      binary64 value.  Every finite binary64 value is an integer multiple of
      the smallest subnormal [2^-1074]; [Fin n] is the value [n * 2^-1074].
      Arithmetic is exact arithmetic on these integers followed by rounding
      to nearest, ties to even, at 53 significant bits.  The sign of zero is
      not recorded: no function below can observe it.
    - A plain object is the finite map of its own properties
      ([gmap string _]) on top of [Object.prototype]: reading a property
      that is not its own finds the one inherited from [Object.prototype],
      and [undefined] when there is none; writing under the key
      [__proto__] goes to the setter of [Object.prototype].
    - A value is a primitive ([undefined], [null], a boolean, a number or a
      string) or an object, a function included, of which the model keeps
      the string that [toString()] returns. *)

From Stdlib Require Import ZArith String Ascii List Bool Lia DecimalString.
From stdpp Require Import gmap strings list fin_maps.

Local Open Scope Z_scope.

(** ** Strings *)

Module JsString.

Definition code (c : ascii) : Z := Z.of_nat (nat_of_ascii c).

(** White space and line terminators of ECMAScript with a code unit below
    256: TAB, LF, VT, FF, CR, SP and NBSP. *)
Definition isWhiteSpace (c : ascii) : bool :=
  let n := code c in
  ((9 <=? n) && (n <=? 13)) || (n =? 32) || (n =? 160).

Fixpoint trimStart (s : string) : string :=
  match s with
  | EmptyString => EmptyString
  | String c r => if isWhiteSpace c then trimStart r else s
  end.

Fixpoint trimEnd (s : string) : string :=
  match s with
  | EmptyString => EmptyString
  | String c r =>
      match trimEnd r with
      | EmptyString => if isWhiteSpace c then EmptyString else String c EmptyString
      | r' => String c r'
      end
  end.

(** [String.prototype.trim] *)
Definition trim (s : string) : string := trimEnd (trimStart s).

(** [s.length] *)
Definition length (s : string) : Z := Z.of_nat (String.length s).

Definition isEmpty (s : string) : bool :=
  match s with EmptyString => true | _ => false end.

(** [s1 === s2] on strings *)
Definition eqb (s1 s2 : string) : bool := bool_decide (s1 = s2).

Definition isDigit (c : ascii) : bool :=
  let n := code c in (48 <=? n) && (n <=? 57).

(** Value of a character as a digit in radix up to 36, as [parseInt] and
    the numeric literals read it. *)
Definition digitValue (c : ascii) : option Z :=
  let n := code c in
  if (48 <=? n) && (n <=? 57) then Some (n - 48)
  else if (97 <=? n) && (n <=? 122) then Some (n - 87)
  else if (65 <=? n) && (n <=? 90) then Some (n - 55)
  else None.

Definition radixDigit (radix : Z) (c : ascii) : option Z :=
  match digitValue c with
  | Some d => if d <? radix then Some d else None
  | None => None
  end.

(** Longest prefix of radix-[radix] digits: the number of digits read,
    their value, and the rest of the string. *)
Fixpoint readDigits (radix : Z) (s : string) (count acc : Z) : Z * Z * string :=
  match s with
  | EmptyString => (count, acc, s)
  | String c r =>
      match radixDigit radix c with
      | Some d => readDigits radix r (count + 1) (acc * radix + d)
      | None => (count, acc, s)
      end
  end.

(** Decimal representation of an integer. *)
Definition ofZ (z : Z) : string := NilZero.string_of_int (Z.to_int z).

Fixpoint repeat (c : ascii) (n : nat) : string :=
  match n with
  | O => EmptyString
  | S k => String c (repeat c k)
  end.

Fixpoint take (n : nat) (s : string) : string :=
  match n, s with
  | S k, String c r => String c (take k r)
  | _, _ => EmptyString
  end.

Fixpoint drop (n : nat) (s : string) : string :=
  match n, s with
  | S k, String _ r => drop k r
  | _, _ => s
  end.

End JsString.

(** ** Numbers *)

Module JsNum.

(** [Fin n] is the binary64 value [n * 2^-1074]. *)
Inductive jsnum : Type :=
| NaN
| Inf (negative : bool)
| Fin (n : Z).

(** The value 1, and the first power of two that no longer fits
    ([2^1024]), both counted in units of [2^-1074]. *)
Definition one : Z := 2 ^ 1074.
Definition overflow : Z := 2 ^ 2098.

(** Nearest integer to the non-negative rational [num / den], ties to
    the even integer. *)
Definition roundHalfEven (num den : Z) : Z :=
  let q := num / den in
  let r := num mod den in
  match 2 * r ?= den with
  | Lt => q
  | Gt => q + 1
  | Eq => if Z.even q then q else q + 1
  end.

(** Rounding of the non-negative rational [num / den] (in units of
    [2^-1074]) to 53 significant bits.  Below [2^53] units the binary64
    values are the integers; from there on, in the binade of [digits]
    bits, they are the multiples of [2^(digits - 53)]. *)
Definition roundUnits (num den : Z) : Z :=
  let digits := Z.log2 (num / den) + 1 in
  let shift := Z.max (digits - 53) 0 in
  roundHalfEven num (den * 2 ^ shift) * 2 ^ shift.

Definition ofUnits (negative : bool) (num den : Z) : jsnum :=
  let n := roundUnits num den in
  if overflow <=? n then Inf negative
  else Fin (if negative then - n else n).

(** The Number value for the real number [± num / den]. *)
Definition ofRatio (negative : bool) (num den : Z) : jsnum :=
  ofUnits negative (num * one) den.

Definition ofZ (z : Z) : jsnum := ofRatio (z <? 0) (Z.abs z) 1.

Definition isNaN (x : jsnum) : bool :=
  match x with NaN => true | _ => false end.

(** [x === 0 || isNaN(x)]: the numbers that are falsy. *)
Definition isFalsy (x : jsnum) : bool :=
  match x with
  | NaN => true
  | Fin n => n =? 0
  | Inf _ => false
  end.

(** [x < y] *)
Definition ltb (x y : jsnum) : bool :=
  match x, y with
  | NaN, _ | _, NaN => false
  | Inf a, Inf b => a && negb b
  | Inf a, Fin _ => a
  | Fin _, Inf b => negb b
  | Fin a, Fin b => a <? b
  end.

(** [x > y] *)
Definition gtb (x y : jsnum) : bool := ltb y x.

(** [x <= y] *)
Definition leb (x y : jsnum) : bool :=
  match x, y with
  | NaN, _ | _, NaN => false
  | Inf a, Inf b => a || negb b
  | Inf a, Fin _ => a
  | Fin _, Inf b => negb b
  | Fin a, Fin b => a <=? b
  end.

Definition neg (x : jsnum) : jsnum :=
  match x with
  | NaN => NaN
  | Inf a => Inf (negb a)
  | Fin n => Fin (- n)
  end.

(** [x + y] *)
Definition add (x y : jsnum) : jsnum :=
  match x, y with
  | NaN, _ | _, NaN => NaN
  | Inf a, Inf b => if Bool.eqb a b then Inf a else NaN
  | Inf a, Fin _ => Inf a
  | Fin _, Inf b => Inf b
  | Fin a, Fin b => ofUnits (a + b <? 0) (Z.abs (a + b)) 1
  end.

(** [x - y] *)
Definition sub (x y : jsnum) : jsnum := add x (neg y).

(** [Math.abs(x)] *)
Definition abs (x : jsnum) : jsnum :=
  match x with
  | NaN => NaN
  | Inf _ => Inf false
  | Fin n => Fin (Z.abs n)
  end.

(** [x % y]: the remainder has the sign of the dividend and is exact. *)
Definition rem (x y : jsnum) : jsnum :=
  match x, y with
  | Fin a, Fin b => if b =? 0 then NaN else Fin (Z.rem a b)
  | Fin a, Inf _ => Fin a
  | _, _ => NaN
  end.

(** [Math.max(x, y)] *)
Definition max (x y : jsnum) : jsnum :=
  match x, y with
  | NaN, _ | _, NaN => NaN
  | _, _ => if ltb x y then y else x
  end.

(** *** Number to string

    [Number.prototype.toString()]: the shortest decimal numeral that
    converts back to the number, the closest one to it among those. *)

(** The decimal exponent [e] of [n > 0] units: [10^(e-1) <= value < 10^e].
    The search starts just below [log2 value * log10 2], which is within
    three of the answer. *)
Fixpoint decimalExponentFrom (fuel : nat) (e n : Z) : Z :=
  match fuel with
  | O => e
  | S fuel' =>
      if n * 10 ^ Z.max (- e) 0 <? one * 10 ^ Z.max e 0 then e
      else decimalExponentFrom fuel' (e + 1) n
  end.

Definition decimalExponent (n : Z) : Z :=
  decimalExponentFrom 8 ((Z.log2 n - 1074) * 30103 / 100000 - 1) n.

(** Does the numeral [s * 10^(e - k)] convert to [Fin n]? *)
Definition convertsTo (n e k s : Z) : bool :=
  match ofRatio false (s * 10 ^ Z.max (e - k) 0) (10 ^ Z.max (k - e) 0) with
  | Fin m => m =? n
  | _ => false
  end.

(** The [k]-digit numeral for [Fin n], when there is one. *)
Definition digitsAt (n e k : Z) : option Z :=
  let a := n * 10 ^ Z.max (k - e) 0 in
  let b := one * 10 ^ Z.max (e - k) 0 in
  let lo := a / b in
  let hi := lo + 1 in
  match convertsTo n e k lo, convertsTo n e k hi with
  | true, true =>
      match 2 * a ?= (2 * lo + 1) * b with
      | Lt => Some lo
      | Gt => Some hi
      | Eq => Some (if Z.even lo then lo else hi)
      end
  | true, false => Some lo
  | false, true => Some hi
  | false, false => None
  end.

Fixpoint shortestFrom (fuel : nat) (n e k : Z) : Z * Z :=
  match fuel with
  | O => (n * 10 ^ Z.max (k - e) 0 / (one * 10 ^ Z.max (e - k) 0), k)
  | S fuel' =>
      match digitsAt n e k with
      | Some s => (s, k)
      | None => shortestFrom fuel' n e (k + 1)
      end
  end.

Definition formatDigits (s k e : Z) : string :=
  let ds := JsString.ofZ s in
  if (k <=? e) && (e <=? 21) then
    ds +:+ JsString.repeat "0" (Z.to_nat (e - k))
  else if (0 <? e) && (e <=? 21) then
    JsString.take (Z.to_nat e) ds +:+ "." +:+ JsString.drop (Z.to_nat e) ds
  else if (-6 <? e) && (e <=? 0) then
    "0." +:+ JsString.repeat "0" (Z.to_nat (- e)) +:+ ds
  else
    let x := e - 1 in
    let xs := (if x <? 0 then "-" else "+") +:+ JsString.ofZ (Z.abs x) in
    if k =? 1 then ds +:+ "e" +:+ xs
    else JsString.take 1 ds +:+ "." +:+ JsString.drop 1 ds +:+ "e" +:+ xs.

Definition positiveToString (n : Z) : string :=
  let e := decimalExponent n in
  let '(s, k) := shortestFrom 20 n e 1 in
  if s =? 10 ^ k then formatDigits (s / 10) k (e + 1)
  else formatDigits s k e.

Definition toString (x : jsnum) : string :=
  match x with
  | NaN => "NaN"
  | Inf false => "Infinity"
  | Inf true => "-Infinity"
  | Fin n =>
      if n =? 0 then "0"
      else if n <? 0 then "-" +:+ positiveToString (- n)
      else positiveToString n
  end.

(** *** String to number *)

Definition readSign (s : string) : bool * string :=
  match s with
  | String "-" r => (true, r)
  | String "+" r => (false, r)
  | _ => (false, s)
  end.

(** An optional exponent part that ends the literal. *)
Definition readExponent (s : string) : option Z :=
  match s with
  | EmptyString => Some 0
  | String c r =>
      if (JsString.code c =? 101) || (JsString.code c =? 69) then
        let '(negative, r1) := readSign r in
        let '(count, v, r2) := JsString.readDigits 10 r1 0 0 in
        if (0 <? count) && JsString.isEmpty r2
        then Some (if negative then - v else v)
        else None
      else None
  end.

(** [StrUnsignedDecimalLiteral] *)
Definition unsignedDecimal (negative : bool) (s : string) : jsnum :=
  if JsString.eqb s "Infinity" then Inf negative
  else
    let '(ci, vi, r1) := JsString.readDigits 10 s 0 0 in
    let '(cf, v, r2) :=
      match r1 with
      | String "." r => JsString.readDigits 10 r 0 vi
      | _ => (0, vi, r1)
      end in
    if ci + cf =? 0 then NaN
    else
      match readExponent r2 with
      | Some x =>
          let p := x - cf in
          ofRatio negative (v * 10 ^ Z.max p 0) (10 ^ Z.max (- p) 0)
      | None => NaN
      end.

(** [0x], [0o] and [0b] literals. *)
Definition nonDecimal (s : string) : option jsnum :=
  match s with
  | String "0" (String c r) =>
      let radix :=
        match JsString.code c with
        | 120 | 88 => Some 16
        | 111 | 79 => Some 8
        | 98 | 66 => Some 2
        | _ => None
        end in
      match radix with
      | Some b =>
          let '(count, v, r') := JsString.readDigits b r 0 0 in
          Some (if (0 <? count) && JsString.isEmpty r' then ofZ v else NaN)
      | None => None
      end
  | _ => None
  end.

(** [Number(s)] on a string ([StringToNumber]). *)
Definition ofString (s : string) : jsnum :=
  let t := JsString.trim s in
  if JsString.isEmpty t then Fin 0
  else
    match nonDecimal t with
    | Some x => x
    | None => let '(negative, r) := readSign t in unsignedDecimal negative r
    end.

(** [parseInt(s)] with no radix argument. *)
Definition parseInt (s : string) : jsnum :=
  let '(negative, s1) := readSign (JsString.trimStart s) in
  let '(radix, s2) :=
    match s1 with
    | String "0" (String c r) =>
        if (JsString.code c =? 120) || (JsString.code c =? 88)
        then (16, r) else (10, s1)
    | _ => (10, s1)
    end in
  let '(count, v, _) := JsString.readDigits radix s2 0 0 in
  if count =? 0 then NaN else ofRatio negative v 1.

End JsNum.

(** ** Values, objects and rule sets *)

Export JsNum (jsnum(..)).

Inductive jsval : Type :=
| VUndefined
| VNull
| VBool (b : bool)
| VNum (x : jsnum)
| VStr (s : string)
| VObject (s : string).

(** [!!v] *)
Definition truthy (v : jsval) : bool :=
  match v with
  | VUndefined | VNull => false
  | VBool b => b
  | VNum x => negb (JsNum.isFalsy x)
  | VStr s => negb (JsString.isEmpty s)
  | VObject _ => true
  end.

(** [v.toString()]; the sources call it on truthy values only, for the
    other two the result of [String(v)] stands in.  An object is given by
    the string its [toString()] returns. *)
Definition toString (v : jsval) : string :=
  match v with
  | VUndefined => "undefined"
  | VNull => "null"
  | VBool true => "true"
  | VBool false => "false"
  | VNum x => JsNum.toString x
  | VStr s => s
  | VObject s => s
  end.

(** [Number(v)]; an object (whose [valueOf] is the one of
    [Object.prototype]) is converted through its string. *)
Definition Number (v : jsval) : jsnum :=
  match v with
  | VUndefined => NaN
  | VNull => Fin 0
  | VBool true => JsNum.ofZ 1
  | VBool false => Fin 0
  | VNum x => x
  | VStr s => JsNum.ofString s
  | VObject s => JsNum.ofString s
  end.

(** A built-in function, by its source text (the form V8 prints). *)
Definition nativeFunction (name : string) : jsval :=
  VObject ("function " +:+ name +:+ "() { [native code] }").

(** The names of the methods of [Object.prototype]. *)
Definition prototypeMethods : list string :=
  ["toString"; "toLocaleString"; "valueOf"; "hasOwnProperty"; "isPrototypeOf";
   "propertyIsEnumerable"; "__defineGetter__"; "__defineSetter__";
   "__lookupGetter__"; "__lookupSetter__"].

(** What [o[name]] finds on [Object.prototype] for a plain object [o]: the
    constructor [Object], the methods, and under [__proto__] the prototype
    itself. *)
Definition inherited (name : string) : option jsval :=
  if bool_decide (name = "constructor") then Some (nativeFunction "Object")
  else if bool_decide (name = "__proto__") then Some (VObject "[object Object]")
  else if bool_decide (name ∈ prototypeMethods) then Some (nativeFunction name)
  else None.

(** [data[field]] on a plain object: its own property, else the inherited
    one, else [undefined]. *)
Definition getField (data : gmap string jsval) (field : string) : jsval :=
  match data !! field with
  | Some v => v
  | None => default VUndefined (inherited field)
  end.

(** [o[key] = value] on a plain object without an own property
    [__proto__]: under that key the setter of [Object.prototype] runs,
    which ignores a string; under any other key the property is set. *)
Definition setProperty (key : string) (value : string) (o : gmap string string)
    : gmap string string :=
  if bool_decide (key = "__proto__") then o else <[key := value]> o.

(** [Object.keys(o)].  The order of the keys is the order of the map, not
    the insertion order of the object; [validateForm_keys_irrelevant] shows
    that the validation result does not depend on it. *)
Definition Object_keys {A} (o : gmap string A) : list string :=
  (map_to_list o).*1.

(** The rule declaration surface shared by the forms. *)

Module Schema.

(** A regular expression without the [g] and [y] flags, given by the
    result of [test] on a string. *)
Definition RegExp : Type := string → bool.

(** One entry of a rule set.  Absent properties are [None] ([false] for
    [required]). *)
Record FieldRule : Type := {
  required : bool;
  minLength : option Z;
  maxLength : option Z;
  pattern : option RegExp;
  message : option string;
  type : option string;
  min : option jsnum;
  max : option jsnum;
  validate : option (jsval → gmap string jsval → option string)
}.

(** [{ isValid, errors }] *)
Record ValidationResult : Type := {
  isValid : bool;
  errors : gmap string string
}.

(** [o && p(o)] for an optional property [o]. *)
Definition whenSet {A} (o : option A) (p : A → bool) : bool :=
  match o with
  | Some a => p a
  | None => false
  end.

(** [n && p(n)] for an optional integer: [0] is falsy too. *)
Definition whenNonZero (o : option Z) (p : Z → bool) : bool :=
  whenSet o (λ n, negb (n =? 0) && p n).

(** [s || fallback] for an optional string: the empty string is falsy. *)
Definition orElse (o : option string) (fallback : string) : string :=
  match o with
  | Some s => if JsString.isEmpty s then fallback else s
  | None => fallback
  end.

End Schema.

(** ** [utils/helpers.js] *)

Module Helpers.

Import Schema.

(** The callback of [Object.keys(rules).forEach]: one field is checked
    and [errors] updated; every [return] leaves [errors] as it is then. *)
Definition validateField (data : gmap string jsval) (rules : gmap string FieldRule)
    (errors : gmap string string) (field : string) : gmap string string :=
  let value := getField data field in
  match rules !! field with
  | None => errors
  | Some rule =>
      let custom :=
        match validate rule with
        | Some check =>
            match check value data with
            | Some customError =>
                if JsString.isEmpty customError then errors
                else setProperty field customError errors
            | None => errors
            end
        | None => errors
        end in
      if required rule
         && (negb (truthy value) || JsString.isEmpty (JsString.trim (toString value)))
      then setProperty field (field +:+ " is required") errors
      else if negb (truthy value) && negb (required rule) then errors
      else if whenNonZero (minLength rule)
                (λ n, JsString.length (toString value) <? n)
      then setProperty field
             (field +:+ " must be at least "
                +:+ JsString.ofZ (default 0 (minLength rule)) +:+ " characters") errors
      else if whenNonZero (maxLength rule)
                (λ n, n <? JsString.length (toString value))
      then setProperty field
             (field +:+ " cannot exceed "
                +:+ JsString.ofZ (default 0 (maxLength rule)) +:+ " characters") errors
      else if whenSet (pattern rule) (λ re, negb (re (toString value)))
      then setProperty field (orElse (message rule) (field +:+ " format is invalid")) errors
      else if bool_decide (type rule = Some "number") then
        let num := Number value in
        if JsNum.isNaN num
        then setProperty field (field +:+ " must be a valid number") errors
        else if whenSet (min rule) (λ m, JsNum.ltb num m)
        then setProperty field
               (field +:+ " must be at least "
                  +:+ JsNum.toString (default NaN (min rule))) errors
        else if whenSet (max rule) (λ m, JsNum.gtb num m)
        then setProperty field
               (field +:+ " cannot exceed "
                  +:+ JsNum.toString (default NaN (max rule))) errors
        else custom
      else custom
  end.

(** The loop of [validateForm] over a given list of keys. *)
Definition validateFields (keys : list string) (data : gmap string jsval)
    (rules : gmap string FieldRule) : gmap string string :=
  foldl (validateField data rules) ∅ keys.

Definition validateForm (data : gmap string jsval) (rules : gmap string FieldRule)
    : ValidationResult :=
  let errors := validateFields (Object_keys rules) data rules in
  {| isValid := Nat.eqb (List.length (Object_keys errors)) 0;
     errors := errors |}.

(** [calculateRideDuration(fromPincode, toPincode)] on strings.  No
    operation of the body throws on strings, so the [catch] branch is
    not reached. *)
Definition calculateRideDuration (fromPincode toPincode : string) : jsnum :=
  let from := JsNum.parseInt fromPincode in
  let to := JsNum.parseInt toPincode in
  if JsNum.isNaN from || JsNum.isNaN to then JsNum.ofZ 2
  else
    let duration := JsNum.rem (JsNum.abs (JsNum.sub from to)) (JsNum.ofZ 24) in
    JsNum.max duration (JsNum.ofZ 1).

(** The pattern [/^\d{6}$/] of [isValidPincode]. *)
Fixpoint allDigits (s : string) : bool :=
  match s with
  | EmptyString => true
  | String c r => JsString.isDigit c && allDigits r
  end.

Definition pincodeRegex : RegExp :=
  λ s, (JsString.length s =? 6) && allDigits s.

(** [isValidPincode(pincode)] *)
Definition isValidPincode (pincode : jsval) : bool :=
  match pincode with
  | VStr s => if JsString.isEmpty s then false else pincodeRegex (JsString.trim s)
  | _ => false
  end.

(** [getVehicleType(capacity)]; [isNaN] and [<=] convert the value with
    [Number] first. *)
Definition getVehicleType (capacity : jsval) : string :=
  if negb (truthy capacity) || JsNum.isNaN (Number capacity) then "Unknown"
  else if JsNum.leb (Number capacity) (JsNum.ofZ 1000) then "Small"
  else if JsNum.leb (Number capacity) (JsNum.ofZ 5000) then "Medium"
  else if JsNum.leb (Number capacity) (JsNum.ofZ 15000) then "Large"
  else "Heavy Duty".

(** *** [debounce(func, delay)]

    The function [debounce] returns, together with the timers it sets.
    Time is counted in ms; [setTimeout] takes a negative delay as zero.
    All timers of a debounced function have the same delay, so the ones
    that are due run in the order they were set. *)

Module Debounce.

Section Debounce.

Context {A : Type}.

Variable delay : Z.

(** The clock, the pending timers (identifier, time due, arguments kept
    for [func]), the identifier of the next timer, the variable
    [timeoutId] of the closure, and the calls of [func] made so far (time,
    arguments). *)
Record World : Type := {
  clock : Z;
  timers : list (nat * Z * A);
  nextId : nat;
  timeoutId : option nat;
  invoked : list (Z * A)
}.

Definition fresh : World :=
  {| clock := 0; timers := []; nextId := 1; timeoutId := None; invoked := [] |}.

(** [clearTimeout(id)]: nothing happens for [undefined] or for a timer
    that is no longer pending. *)
Definition clearTimeout (id : option nat) (pending : list (nat * Z * A))
    : list (nat * Z * A) :=
  match id with
  | Some i => filter (λ t, t.1.1 ≠ i) pending
  | None => pending
  end.

(** A call of the debounced function. *)
Definition call (args : A) (w : World) : World :=
  {| clock := clock w;
     timers := clearTimeout (timeoutId w) (timers w)
                 ++ [(nextId w, clock w + Z.max delay 0, args)];
     nextId := Datatypes.S (nextId w);
     timeoutId := Some (nextId w);
     invoked := invoked w |}.

(** [dt] ms pass: the timers due by then call [func]. *)
Definition elapse (dt : Z) (w : World) : World :=
  let now := clock w + dt in
  {| clock := now;
     timers := filter (λ t, ¬ (t.1.2 ≤ now)) (timers w);
     nextId := nextId w;
     timeoutId := timeoutId w;
     invoked := invoked w
                  ++ ((λ t, (t.1.2, t.2)) <$> filter (λ t, t.1.2 ≤ now) (timers w)) |}.

(** A burst of calls, each made [gap] ms after the one before. *)
Definition burst (calls : list (Z * A)) (w : World) : World :=
  foldl (λ w' c, call c.2 (elapse c.1 w')) w calls.

End Debounce.

End Debounce.

(** *** [throttle(func, limit)] *)

Module Throttle.

Section Throttle.

Context {A : Type}.

Variable limit : Z.

(** The clock, the times at which the pending timers (all of them run
    [inThrottle = false]) are due, the variable [inThrottle] of the
    closure, and the calls of [func] made so far (time, arguments). *)
Record World : Type := {
  clock : Z;
  timers : list Z;
  inThrottle : bool;
  invoked : list (Z * A)
}.

Definition fresh : World :=
  {| clock := 0; timers := []; inThrottle := false; invoked := [] |}.

(** A call of the throttled function. *)
Definition call (args : A) (w : World) : World :=
  if inThrottle w then w
  else
    {| clock := clock w;
       timers := timers w ++ [clock w + Z.max limit 0];
       inThrottle := true;
       invoked := invoked w ++ [(clock w, args)] |}.

(** [dt] ms pass: the timers due by then run. *)
Definition elapse (dt : Z) (w : World) : World :=
  let now := clock w + dt in
  {| clock := now;
     timers := filter (λ t, ¬ (t ≤ now)) (timers w);
     inThrottle :=
       match filter (λ t, t ≤ now) (timers w) with
       | [] => inThrottle w
       | _ :: _ => false
       end;
     invoked := invoked w |}.




End Throttle.

End Throttle.

End Helpers.

(** ** The standalone copy of [validateForm] *)

Module Validation.

Import Schema.

Definition validateField (data : gmap string jsval) (rules : gmap string FieldRule)
    (errors : gmap string string) (field : string) : gmap string string :=
  let value := getField data field in
  match rules !! field with
  | None => errors
  | Some rule =>
      let custom :=
        match validate rule with
        | Some check =>
            match check value data with
            | Some customError =>
                if JsString.isEmpty customError then errors
                else setProperty field customError errors
            | None => errors
            end
        | None => errors
        end in
      if required rule
         && (negb (truthy value) || JsString.isEmpty (JsString.trim (toString value)))
      then setProperty field (field +:+ " is required") errors
      else if negb (truthy value) && negb (required rule) then errors
      else if whenNonZero (minLength rule)
                (λ n, JsString.length (toString value) <? n)
      then setProperty field
             (field +:+ " must be at least "
                +:+ JsString.ofZ (default 0 (minLength rule)) +:+ " characters") errors
      else if whenNonZero (maxLength rule)
                (λ n, n <? JsString.length (toString value))
      then setProperty field
             (field +:+ " cannot exceed "
                +:+ JsString.ofZ (default 0 (maxLength rule)) +:+ " characters") errors
      else if whenSet (pattern rule) (λ re, negb (re (toString value)))
      then setProperty field (orElse (message rule) (field +:+ " format is invalid")) errors
      else if bool_decide (type rule = Some "number") then
        let num := Number value in
        if JsNum.isNaN num
        then setProperty field (field +:+ " must be a valid number") errors
        else if whenSet (min rule) (λ m, JsNum.ltb num m)
        then setProperty field
               (field +:+ " must be at least "
                  +:+ JsNum.toString (default NaN (min rule))) errors
        else if whenSet (max rule) (λ m, JsNum.gtb num m)
        then setProperty field
               (field +:+ " cannot exceed "
                  +:+ JsNum.toString (default NaN (max rule))) errors
        else custom
      else custom
  end.

Definition validateFields (keys : list string) (data : gmap string jsval)
    (rules : gmap string FieldRule) : gmap string string :=
  foldl (validateField data rules) ∅ keys.

Definition validateForm (data : gmap string jsval) (rules : gmap string FieldRule)
    : ValidationResult :=
  let errors := validateFields (Object_keys rules) data rules in
  {| isValid := Nat.eqb (List.length (Object_keys errors)) 0;
     errors := errors |}.

End Validation.

(** ** Event handlers

    A handler runs against the component state, updates it through the
    state setters and performs effects (notifications, requests, timers),
    which are recorded in order. *)

Section Handler.

Context {S E : Type}.

Definition Handler : Type := S → S * list E.

Definition skip : Handler := λ st, (st, []).

Definition set (f : S → S) : Handler := λ st, (f st, []).

Definition emit (e : E) : Handler := λ st, (st, [e]).

Definition andThen (h1 h2 : Handler) : Handler :=
  λ st, let '(st1, e1) := h1 st in
        let '(st2, e2) := h2 st1 in
        (st2, e1 ++ e2).

End Handler.

Arguments Handler : clear implicits.

Declare Scope handler_scope.
Delimit Scope handler_scope with handler.
Bind Scope handler_scope with Handler.
Notation "h1 ;; h2" := (andThen h1 h2)
  (at level 100, h2 at level 200, right associativity) : handler_scope.

(** ** [services/api.js] *)

Module Api.

(** An entry of [error.details.validationErrors]. *)
Record ValidationError : Type := {
  path : string;
  message : string
}.

(** [data.error] of a response body: [error.message] and
    [error.details?.validationErrors]. *)
Record ErrorInfo : Type := {
  errorMessage : option string;
  validationErrors : option (list ValidationError)
}.

(** The body of a response: [data.success], [data.error]. *)
Record ResponseData : Type := {
  success : bool;
  error : option ErrorInfo
}.

Record Response : Type := {
  status : Z;
  data : ResponseData
}.

(** The error a request is rejected with: [error.response] when the server
    answered, [error.request] when the request was sent at all, and
    [error.message]. *)
Record AxiosError : Type := {
  response : option Response;
  request : bool;
  errMessage : string
}.

(** [data.error?.message] *)
Definition serverMessage (d : ResponseData) : option string :=
  match error d with
  | Some e => errorMessage e
  | None => None
  end.

Definition setMessage (m : string) (e : AxiosError) : AxiosError :=
  {| response := response e; request := request e; errMessage := m |}.

(** The rejection branch of [api.interceptors.response.use]. *)
Definition responseError (e : AxiosError) : AxiosError :=
  match response e with
  | Some r =>
      let d := data r in
      match status r with
      | 400 => setMessage (Schema.orElse (serverMessage d) "Invalid request data") e
      | 401 => setMessage "Authentication required" e
      | 403 => setMessage "Access denied" e
      | 404 => setMessage "Resource not found" e
      | 409 => setMessage (Schema.orElse (serverMessage d) "Conflict occurred") e
      | 422 => setMessage "Validation failed" e
      | 429 => setMessage "Too many requests. Please try again later" e
      | 500 => setMessage "Internal server error" e
      | _ => setMessage (Schema.orElse (serverMessage d) "An error occurred") e
      end
  | None =>
      if request e
      then setMessage "Network error. Please check your internet connection" e
      else setMessage "An unexpected error occurred" e
  end.

(** [error.response?.data?.error?.message] *)
Definition responseMessage (e : AxiosError) : option string :=
  match response e with
  | Some r => serverMessage (data r)
  | None => None
  end.

Definition getErrorMessage (e : AxiosError) : string :=
  match responseMessage e with
  | Some m =>
      if JsString.isEmpty m
      then Schema.orElse (Some (errMessage e)) "An unexpected error occurred"
      else m
  | None => Schema.orElse (Some (errMessage e)) "An unexpected error occurred"
  end.

End Api.

(** ** [pages/AddVehicle.jsx] *)

Module AddVehicle.

(** The form state holds what the three inputs hold: strings. *)
Record FormData : Type := {
  name : string;
  capacityKg : string;
  tyres : string
}.

Definition emptyForm : FormData :=
  {| name := EmptyString; capacityKg := EmptyString; tyres := EmptyString |}.

(** The state of the component: the four [useState] cells. *)
Record State : Type := {
  formData : FormData;
  errors : gmap string string;
  isSubmitting : bool;
  isSuccess : bool
}.

Definition initialState : State :=
  {| formData := emptyForm; errors := ∅; isSubmitting := false; isSuccess := false |}.

Definition setFormData (v : FormData) (st : State) : State :=
  {| formData := v; errors := errors st;
     isSubmitting := isSubmitting st; isSuccess := isSuccess st |}.

Definition setErrors (v : gmap string string) (st : State) : State :=
  {| formData := formData st; errors := v;
     isSubmitting := isSubmitting st; isSuccess := isSuccess st |}.

Definition setIsSubmitting (v : bool) (st : State) : State :=
  {| formData := formData st; errors := errors st;
     isSubmitting := v; isSuccess := isSuccess st |}.

Definition setIsSuccess (v : bool) (st : State) : State :=
  {| formData := formData st; errors := errors st;
     isSubmitting := isSubmitting st; isSuccess := v |}.

(** The body of the POST request. *)
Record VehicleData : Type := {
  vehicleName : string;
  vehicleCapacityKg : jsnum;
  vehicleTyres : jsnum
}.

(** The function handed to [setTimeout]. *)
Inductive Callback : Type :=
| ResetForm.

Inductive Effect : Type :=
| ToastError (msg : string)
| ToastSuccess (msg : string)
| ConsoleError
| AddVehicleRequest (vehicleData : VehicleData)
| SetTimeout (callback : Callback) (delay : Z).

Definition validationRules : gmap string Schema.FieldRule :=
  {[ "name" :=
       {| Schema.required := true;
          Schema.minLength := Some 2;
          Schema.maxLength := Some 100;
          Schema.pattern := None;
          Schema.message := Some "Vehicle name must be between 2-100 characters";
          Schema.type := None;
          Schema.min := None;
          Schema.max := None;
          Schema.validate := None |};
     "capacityKg" :=
       {| Schema.required := true;
          Schema.minLength := None;
          Schema.maxLength := None;
          Schema.pattern := None;
          Schema.message := Some "Capacity must be between 1-50,000 kg";
          Schema.type := Some "number";
          Schema.min := Some (JsNum.ofZ 1);
          Schema.max := Some (JsNum.ofZ 50000);
          Schema.validate := None |};
     "tyres" :=
       {| Schema.required := true;
          Schema.minLength := None;
          Schema.maxLength := None;
          Schema.pattern := None;
          Schema.message := Some "Number of tyres must be between 2-18";
          Schema.type := Some "number";
          Schema.min := Some (JsNum.ofZ 2);
          Schema.max := Some (JsNum.ofZ 18);
          Schema.validate := None |} ]}.

(** The [formData] object as [validateForm] receives it. *)
Definition toObject (d : FormData) : gmap string jsval :=
  {[ "name" := VStr (name d);
     "capacityKg" := VStr (capacityKg d);
     "tyres" := VStr (tyres d) ]}.

(** [handleSubmit] up to the [await]. *)
Local Open Scope handler_scope.

Definition handleSubmit : Handler State Effect :=
  λ st,
    let validation := Helpers.validateForm (toObject (formData st)) validationRules in
    if negb (Schema.isValid validation) then
      (set (setErrors (Schema.errors validation)) ;;
       emit (ToastError "Please fix the errors in the form")) st
    else
      (set (setIsSubmitting true) ;;
       set (setErrors ∅) ;;
       emit (AddVehicleRequest
               {| vehicleName := JsString.trim (name (formData st));
                  vehicleCapacityKg := JsNum.parseInt (capacityKg (formData st));
                  vehicleTyres := JsNum.parseInt (tyres (formData st)) |})) st.

(** [handleSubmit] from the [await] on, when the request is fulfilled:
    the rest of the [try] block, then [finally]. *)
Definition handleSubmit_fulfilled (response : Api.Response) : Handler State Effect :=
  (if Api.success (Api.data response) then
     emit (ToastSuccess "Vehicle added successfully!") ;;
     set (setIsSuccess true) ;;
     emit (SetTimeout ResetForm 2000)
   else skip) ;;
  set (setIsSubmitting false).

(** [handleSubmit] from the [await] on, when the request is rejected:
    [catch], then [finally]. *)
Definition handleSubmit_rejected (error : Api.AxiosError) : Handler State Effect :=
  emit ConsoleError ;;
  emit (ToastError (Schema.orElse (Api.responseMessage error) "Failed to add vehicle")) ;;
  match Api.response error with
  | Some r =>
      match Api.error (Api.data r) with
      | Some info =>
          match Api.validationErrors info with
          | Some errs =>
              set (setErrors
                     (foldl (λ serverErrors err,
                               setProperty (Api.path err) (Api.message err) serverErrors)
                            ∅ errs))
          | None => skip
          end
      | None => skip
      end
  | None => skip
  end ;;
  set (setIsSubmitting false).

(** The timer callback. *)
Definition runCallback (cb : Callback) : Handler State Effect :=
  match cb with
  | ResetForm => set (setFormData emptyForm) ;; set (setIsSuccess false)
  end.

(** The page in its environment: the component state, the clock (in ms),
    the pending timers with the time they are due, and everything the
    page did so far. *)
Record World : Type := {
  ui : State;
  clock : Z;
  timers : list (Z * Callback);
  log : list Effect
}.

Definition scheduled (now : Z) (effects : list Effect) : list (Z * Callback) :=
  omap (λ e, match e with
             | SetTimeout cb delay => Some (now + delay, cb)
             | _ => None
             end) effects.

(** Run a handler as one task of the event loop. *)
Definition dispatch (h : Handler State Effect) (w : World) : World :=
  let '(st, effects) := h (ui w) in
  {| ui := st;
     clock := clock w;
     timers := timers w ++ scheduled (clock w) effects;
     log := log w ++ effects |}.

(** Let [dt] ms pass: the timers that are due by then run, in the order
    they were set. *)
Definition advance (dt : Z) (w : World) : World :=
  let now := clock w + dt in
  let due := filter (λ t, t.1 ≤ now) (timers w) in
  let pending := filter (λ t, ¬ (t.1 ≤ now)) (timers w) in
  foldl (λ w' t, dispatch (runCallback t.2) w')
        {| ui := ui w; clock := now; timers := pending; log := log w |} due.

(** The submission state of the specification, read off the two flags. *)
Inductive SubmissionState : Type :=
| Idle
| Submitting
| Succeeded.

Definition submissionState (st : State) : SubmissionState :=
  if isSubmitting st then Submitting
  else if isSuccess st then Succeeded
  else Idle.

Definition requests (effects : list Effect) : list VehicleData :=
  omap (λ e, match e with AddVehicleRequest v => Some v | _ => None end) effects.

Definition errorToasts (effects : list Effect) : list string :=
  omap (λ e, match e with ToastError m => Some m | _ => None end) effects.

(** The input that changed: [e.target.name] is the name of one of the
    three inputs of the form. *)
Inductive Field : Type :=
| NameField
| CapacityKgField
| TyresField.

Definition fieldName (f : Field) : string :=
  match f with
  | NameField => "name"
  | CapacityKgField => "capacityKg"
  | TyresField => "tyres"
  end.

(** [{ ...prev, [name]: value }] *)
Definition setField (f : Field) (value : string) (d : FormData) : FormData :=
  match f with
  | NameField => {| name := value; capacityKg := capacityKg d; tyres := tyres d |}
  | CapacityKgField => {| name := name d; capacityKg := value; tyres := tyres d |}
  | TyresField => {| name := name d; capacityKg := capacityKg d; tyres := value |}
  end.

Definition getFormField (f : Field) (d : FormData) : string :=
  match f with
  | NameField => name d
  | CapacityKgField => capacityKg d
  | TyresField => tyres d
  end.

(** [errors[name]] is truthy: there is a non-empty message. *)
Definition hasError (errs : gmap string string) (key : string) : bool :=
  match errs !! key with
  | Some m => negb (JsString.isEmpty m)
  | None => false
  end.

(** [handleInputChange] for the event of input [name] with the new
    [value]. *)
Definition handleInputChange (name : Field) (value : string) : Handler State Effect :=
  λ st,
    ((if hasError (errors st) (fieldName name)
      then set (λ prev, setErrors (<[fieldName name := EmptyString]> (errors prev)) prev)
      else skip) ;;
     (if isSuccess st then set (setIsSuccess false) else skip) ;;
     set (λ prev, setFormData (setField name value (formData prev)) prev)) st.

(** [handleReset] *)
Definition handleReset : Handler State Effect :=
  set (setFormData emptyForm) ;;
  set (setErrors ∅) ;;
  set (setIsSuccess false).

(** The map [serverErrors] built from the list of validation errors. *)
Definition serverErrors (errs : list Api.ValidationError) : gmap string string :=
  foldl (λ acc err, setProperty (Api.path err) (Api.message err) acc) ∅ errs.

End AddVehicle.

(** ** [pages/SearchBooking.jsx] *)

Module SearchBooking.

(** The search form holds what its four inputs hold: strings. *)
Record SearchData : Type := {
  capacityRequired : string;
  fromPincode : string;
  toPincode : string;
  startTime : string
}.

(** An entry of the list of vehicles the server answers with. *)
Record Vehicle : Type := {
  vehicleId : string
}.

(** The [useState] cells that [handleSearch] reads or writes. *)
Record State : Type := {
  searchData : SearchData;
  searchErrors : gmap string string;
  isSearching : bool;
  availableVehicles : list Vehicle;
  hasSearched : bool
}.

Definition setSearchErrors (v : gmap string string) (st : State) : State :=
  {| searchData := searchData st; searchErrors := v; isSearching := isSearching st;
     availableVehicles := availableVehicles st; hasSearched := hasSearched st |}.

Definition setIsSearching (v : bool) (st : State) : State :=
  {| searchData := searchData st; searchErrors := searchErrors st; isSearching := v;
     availableVehicles := availableVehicles st; hasSearched := hasSearched st |}.

Definition setAvailableVehicles (v : list Vehicle) (st : State) : State :=
  {| searchData := searchData st; searchErrors := searchErrors st;
     isSearching := isSearching st;
     availableVehicles := v; hasSearched := hasSearched st |}.

Definition setHasSearched (v : bool) (st : State) : State :=
  {| searchData := searchData st; searchErrors := searchErrors st;
     isSearching := isSearching st;
     availableVehicles := availableVehicles st; hasSearched := v |}.

(** The query of the GET request. *)
Record SearchParams : Type := {
  paramCapacityRequired : jsnum;
  paramFromPincode : string;
  paramToPincode : string;
  paramStartTime : string
}.

Inductive Effect : Type :=
| ToastError (msg : string)
| ToastInfo (msg : string)
| ToastSuccess (msg : string)
| ConsoleError
| AvailableVehiclesRequest (searchParams : SearchParams).

Fixpoint allDigits (s : string) : bool :=
  match s with
  | EmptyString => true
  | String c r => JsString.isDigit c && allDigits r
  end.

(** The pattern [/^\d{6}$/]. *)
Definition sixDigits : Schema.RegExp :=
  λ s, (JsString.length s =? 6) && allDigits s.

(** The [searchData] object as [validateForm] receives it. *)
Definition toObject (d : SearchData) : gmap string jsval :=
  {[ "capacityRequired" := VStr (capacityRequired d);
     "fromPincode" := VStr (fromPincode d);
     "toPincode" := VStr (toPincode d);
     "startTime" := VStr (startTime d) ]}.

Section Clock.

(** The clock and the date functions of the run time: the time value (ms
    since the epoch, [NaN] for an invalid date) of [new Date(s)] for a
    string, the time value of [new Date()], and [toISOString] on a valid
    time value. *)
Variable parseDate : string → jsnum.
Variable now : jsnum.
Variable toISOString : jsnum → string.

(** The time value of [new Date(v)]. *)
Definition dateOf (v : jsval) : jsnum :=
  match v with
  | VStr s | VObject s => parseDate s
  | _ => Number v
  end.

(** The custom check of [startTime]; [setHours(getHours() + 1)] moves the
    time value by one hour (no change of the local offset in that hour). *)
Definition startTimeCheck (value : jsval) (record : gmap string jsval) : option string :=
  let selectedDate := dateOf value in
  let minDate := JsNum.add now (JsNum.ofZ 3600000) in
  if JsNum.leb selectedDate minDate
  then Some "Start time must be at least 1 hour from now"
  else None.

Definition searchValidationRules : gmap string Schema.FieldRule :=
  {[ "capacityRequired" :=
       {| Schema.required := true;
          Schema.minLength := None;
          Schema.maxLength := None;
          Schema.pattern := None;
          Schema.message := Some "Required capacity must be between 1-50,000 kg";
          Schema.type := Some "number";
          Schema.min := Some (JsNum.ofZ 1);
          Schema.max := Some (JsNum.ofZ 50000);
          Schema.validate := None |};
     "fromPincode" :=
       {| Schema.required := true;
          Schema.minLength := None;
          Schema.maxLength := None;
          Schema.pattern := Some sixDigits;
          Schema.message := Some "From pincode must be exactly 6 digits";
          Schema.type := None;
          Schema.min := None;
          Schema.max := None;
          Schema.validate := None |};
     "toPincode" :=
       {| Schema.required := true;
          Schema.minLength := None;
          Schema.maxLength := None;
          Schema.pattern := Some sixDigits;
          Schema.message := Some "To pincode must be exactly 6 digits";
          Schema.type := None;
          Schema.min := None;
          Schema.max := None;
          Schema.validate := None |};
     "startTime" :=
       {| Schema.required := true;
          Schema.minLength := None;
          Schema.maxLength := None;
          Schema.pattern := None;
          Schema.message := None;
          Schema.type := None;
          Schema.min := None;
          Schema.max := None;
          Schema.validate := Some startTimeCheck |} ]}.

Local Open Scope handler_scope.

(** [handleSearch] up to the [await].  [toISOString] throws on an invalid
    date: control then goes through [catch] and [finally] at once. *)
Definition handleSearch : Handler State Effect :=
  λ st,
    let validation :=
      Helpers.validateForm (toObject (searchData st)) searchValidationRules in
    if negb (Schema.isValid validation) then
      (set (setSearchErrors (Schema.errors validation)) ;;
       emit (ToastError "Please fix the errors in the search form")) st
    else if JsString.eqb (fromPincode (searchData st)) (toPincode (searchData st)) then
      (set (setSearchErrors
              {[ "toPincode" := "Destination must be different from pickup location" ]}) ;;
       emit (ToastError "Pickup and destination locations must be different")) st
    else
      (set (setIsSearching true) ;;
       set (setSearchErrors ∅) ;;
       set (setAvailableVehicles []) ;;
       (if JsNum.isNaN (parseDate (startTime (searchData st))) then
          emit ConsoleError ;;
          emit (ToastError "Failed to search vehicles") ;;
          set (setHasSearched true) ;;
          set (setIsSearching false)
        else
          emit (AvailableVehiclesRequest
                  {| paramCapacityRequired :=
                       JsNum.parseInt (capacityRequired (searchData st));
                     paramFromPincode := JsString.trim (fromPincode (searchData st));
                     paramToPincode := JsString.trim (toPincode (searchData st));
                     paramStartTime :=
                       toISOString (parseDate (startTime (searchData st))) |}))) st.

End Clock.

Definition requests (effects : list Effect) : list SearchParams :=
  omap (λ e, match e with AvailableVehiclesRequest p => Some p | _ => None end) effects.

Definition errorToasts (effects : list Effect) : list string :=
  omap (λ e, match e with ToastError m => Some m | _ => None end) effects.

(** *** A clock for the examples

    [datetime-local] values ([YYYY-MM-DDTHH:mm]) read in a zone without
    offset, as ECMA-262 reads the date-time format: hour 24 with minute 00
    is the end of the day, a day past the end of its month is no date. *)

Definition twoDigits (s : string) : option Z :=
  match JsString.readDigits 10 s 0 0 with
  | (2, v, EmptyString) => Some v
  | _ => None
  end.

Definition fourDigits (s : string) : option Z :=
  match JsString.readDigits 10 s 0 0 with
  | (4, v, EmptyString) => Some v
  | _ => None
  end.

Definition isLeapYear (y : Z) : bool :=
  ((y mod 4 =? 0) && negb (y mod 100 =? 0)) || (y mod 400 =? 0).

Definition daysInMonth (y m : Z) : Z :=
  if m =? 2 then (if isLeapYear y then 29 else 28)
  else if (m =? 4) || (m =? 6) || (m =? 9) || (m =? 11) then 30
  else 31.

(** Days from 1970-01-01 to the given civil date. *)
Definition daysFromCivil (y m d : Z) : Z :=
  let y' := if m <=? 2 then y - 1 else y in
  let era := y' / 400 in
  let yoe := y' - era * 400 in
  let mp := (m + 9) mod 12 in
  let doy := (153 * mp + 2) / 5 + d - 1 in
  let doe := yoe * 365 + yoe / 4 - yoe / 100 + doy in
  era * 146097 + doe - 719468.

Definition substring (from len : nat) (s : string) : string :=
  JsString.take len (JsString.drop from s).

Definition parseDateTimeLocal (s : string) : jsnum :=
  match fourDigits (substring 0 4 s), twoDigits (substring 5 2 s),
        twoDigits (substring 8 2 s), twoDigits (substring 11 2 s),
        twoDigits (substring 14 2 s) with
  | Some y, Some m, Some d, Some hh, Some mm =>
      if JsString.eqb (substring 4 1 s) "-" && JsString.eqb (substring 7 1 s) "-"
         && JsString.eqb (substring 10 1 s) "T" && JsString.eqb (substring 13 1 s) ":"
         && (JsString.length s =? 16)
         && (1 <=? m) && (m <=? 12) && (1 <=? d) && (d <=? daysInMonth y m)
         && (((hh <=? 23) && (mm <=? 59)) || ((hh =? 24) && (mm =? 0)))
      then JsNum.ofZ (((daysFromCivil y m d * 24 + hh) * 60 + mm) * 60000)
      else NaN
  | _, _, _, _, _ => NaN
  end.

(** The input that changed: one of the four inputs of the search form. *)
Inductive Field : Type :=
| CapacityRequiredField
| FromPincodeField
| ToPincodeField
| StartTimeField.

Definition fieldName (f : Field) : string :=
  match f with
  | CapacityRequiredField => "capacityRequired"
  | FromPincodeField => "fromPincode"
  | ToPincodeField => "toPincode"
  | StartTimeField => "startTime"
  end.

(** [{ ...prev, [name]: value }] *)
Definition setField (f : Field) (value : string) (d : SearchData) : SearchData :=
  match f with
  | CapacityRequiredField =>
      {| capacityRequired := value; fromPincode := fromPincode d;
         toPincode := toPincode d; startTime := startTime d |}
  | FromPincodeField =>
      {| capacityRequired := capacityRequired d; fromPincode := value;
         toPincode := toPincode d; startTime := startTime d |}
  | ToPincodeField =>
      {| capacityRequired := capacityRequired d; fromPincode := fromPincode d;
         toPincode := value; startTime := startTime d |}
  | StartTimeField =>
      {| capacityRequired := capacityRequired d; fromPincode := fromPincode d;
         toPincode := toPincode d; startTime := value |}
  end.

Definition setSearchData (v : SearchData) (st : State) : State :=
  {| searchData := v; searchErrors := searchErrors st; isSearching := isSearching st;
     availableVehicles := availableVehicles st; hasSearched := hasSearched st |}.

(** [searchErrors[name]] is truthy. *)
Definition hasError (errs : gmap string string) (key : string) : bool :=
  match errs !! key with
  | Some m => negb (JsString.isEmpty m)
  | None => false
  end.

Local Open Scope handler_scope.

(** [handleSearchInputChange] for the event of input [name] with the new
    [value]. *)
Definition handleSearchInputChange (name : Field) (value : string)
    : Handler State Effect :=
  λ st,
    ((if hasError (searchErrors st) (fieldName name)
      then set (λ prev,
                  setSearchErrors (<[fieldName name := EmptyString]> (searchErrors prev)) prev)
      else skip) ;;
     (if hasSearched st
      then set (setAvailableVehicles []) ;; set (setHasSearched false)
      else skip) ;;
     set (λ prev, setSearchData (setField name value (searchData prev)) prev)) st.

End SearchBooking.

(** ** Notions of the specification *)

Module Spec.

Import Schema.

(** The error one field receives when it is checked on its own. *)
Definition fieldError (data : gmap string jsval) (rules : gmap string FieldRule)
    (field : string) : option string :=
  Helpers.validateField data rules ∅ field !! field.

(** A value is absent: missing, [undefined] or [null]. *)
Definition isAbsent (v : jsval) : bool :=
  match v with
  | VUndefined | VNull => true
  | _ => false
  end.

(** The string form of a value trims to the empty string. *)
Definition trimsToEmpty (v : jsval) : bool :=
  JsString.isEmpty (JsString.trim (toString v)).

(** The outcome of the structural checks of a field (steps 1 to 5 of the
    engine): the first check that fails, or the field is optional and
    empty, or all of them pass. *)
Inductive Outcome : Type :=
| Failed (msg : string)
| Skipped
| Passed.

Definition requiredCheck (field : string) (rule : FieldRule) (value : jsval)
    : option string :=
  if required rule && (negb (truthy value) || trimsToEmpty value)
  then Some (field +:+ " is required") else None.

Definition minLengthCheck (field : string) (rule : FieldRule) (value : jsval)
    : option string :=
  match minLength rule with
  | Some n =>
      if negb (n =? 0) && (JsString.length (toString value) <? n)
      then Some (field +:+ " must be at least " +:+ JsString.ofZ n +:+ " characters")
      else None
  | None => None
  end.

Definition maxLengthCheck (field : string) (rule : FieldRule) (value : jsval)
    : option string :=
  match maxLength rule with
  | Some n =>
      if negb (n =? 0) && (n <? JsString.length (toString value))
      then Some (field +:+ " cannot exceed " +:+ JsString.ofZ n +:+ " characters")
      else None
  | None => None
  end.

Definition patternCheck (field : string) (rule : FieldRule) (value : jsval)
    : option string :=
  match pattern rule with
  | Some re =>
      if re (toString value) then None
      else Some (orElse (message rule) (field +:+ " format is invalid"))
  | None => None
  end.

Definition numberCheck (field : string) (rule : FieldRule) (value : jsval)
    : option string :=
  if bool_decide (type rule = Some "number") then
    let num := Number value in
    if JsNum.isNaN num then Some (field +:+ " must be a valid number")
    else
      match min rule with
      | Some m =>
          if JsNum.ltb num m
          then Some (field +:+ " must be at least " +:+ JsNum.toString m)
          else
            match max rule with
            | Some m' =>
                if JsNum.gtb num m'
                then Some (field +:+ " cannot exceed " +:+ JsNum.toString m')
                else None
            | None => None
            end
      | None =>
          match max rule with
          | Some m' =>
              if JsNum.gtb num m'
              then Some (field +:+ " cannot exceed " +:+ JsNum.toString m')
              else None
          | None => None
          end
      end
  else None.

Fixpoint firstError (checks : list (option string)) : option string :=
  match checks with
  | [] => None
  | Some m :: _ => Some m
  | None :: rest => firstError rest
  end.

Definition structuralChecks (field : string) (rule : FieldRule) (value : jsval)
    : Outcome :=
  match requiredCheck field rule value with
  | Some m => Failed m
  | None =>
      if negb (truthy value) && negb (required rule) then Skipped
      else
        match firstError [minLengthCheck field rule value;
                          maxLengthCheck field rule value;
                          patternCheck field rule value;
                          numberCheck field rule value] with
        | Some m => Failed m
        | None => Passed
        end
  end.

(** The message of a custom check that counts: a non-empty string. *)
Definition customMessage (check : jsval → gmap string jsval → option string)
    (value : jsval) (data : gmap string jsval) : option string :=
  match check value data with
  | Some m => if JsString.isEmpty m then None else Some m
  | None => None
  end.

(** The rule [{type: "number", min: 1, max: 50000}]. *)
Definition capacityRule : FieldRule :=
  {| required := false;
     minLength := None;
     maxLength := None;
     pattern := None;
     message := None;
     type := Some "number";
     min := Some (JsNum.ofZ 1);
     max := Some (JsNum.ofZ 50000);
     validate := None |}.

(** The rule [{required: true}] with a custom check that always objects. *)
Definition alwaysObjects (value : jsval) (data : gmap string jsval) : option string :=
  Some "custom check failed".

Definition requiredWithCustom : FieldRule :=
  {| required := true;
     minLength := None;
     maxLength := None;
     pattern := None;
     message := None;
     type := None;
     min := None;
     max := None;
     validate := Some alwaysObjects |}.

(** The rule [{required: true}]. *)
Definition requiredOnly : FieldRule :=
  {| required := true;
     minLength := None;
     maxLength := None;
     pattern := None;
     message := None;
     type := None;
     min := None;
     max := None;
     validate := None |}.

(** A string composed only of white space (the empty string included). *)
Fixpoint allWhiteSpace (s : string) : bool :=
  match s with
  | EmptyString => true
  | String c r => JsString.isWhiteSpace c && allWhiteSpace r
  end.

(** The first letter of what follows the field name in a message. *)
Definition wordAfterField (s : string) : option ascii :=
  match s with
  | String _ (String c _) => Some c
  | _ => None
  end.

(** The generic message of a status. *)
Definition genericMessage (status : Z) : string :=
  match status with
  | 400 => "Invalid request data"
  | 401 => "Authentication required"
  | 403 => "Access denied"
  | 404 => "Resource not found"
  | 409 => "Conflict occurred"
  | 422 => "Validation failed"
  | 429 => "Too many requests. Please try again later"
  | 500 => "Internal server error"
  | _ => "An error occurred"
  end.

(** The statuses whose generic message is reported whatever the body of
    the response says. *)
Definition fixedMessageStatus (status : Z) : bool :=
  match status with
  | 401 | 403 | 404 | 422 | 429 | 500 => true
  | _ => false
  end.

(** A rejection with status 404 whose body carries a message. *)
Definition notFoundError : Api.AxiosError :=
  {| Api.response :=
       Some {| Api.status := 404;
               Api.data :=
                 {| Api.success := false;
                    Api.error :=
                      Some {| Api.errorMessage := Some "Vehicle not found";
                              Api.validationErrors := None |} |} |};
     Api.request := true;
     Api.errMessage := "Request failed with status code 404" |}.

(** The add-vehicle form of the scenario: no name, a capacity of 60000
    and a single tyre. *)
Definition rejectedVehicle : AddVehicle.State :=
  {| AddVehicle.formData :=
       {| AddVehicle.name := EmptyString;
          AddVehicle.capacityKg := "60000";
          AddVehicle.tyres := "1" |};
     AddVehicle.errors := ∅;
     AddVehicle.isSubmitting := false;
     AddVehicle.isSuccess := false |}.

(** A form that passes validation, on a page that has just been opened. *)
Definition acceptedVehicle : AddVehicle.World :=
  {| AddVehicle.ui :=
       {| AddVehicle.formData :=
            {| AddVehicle.name := "Truck-001";
               AddVehicle.capacityKg := "5000";
               AddVehicle.tyres := "6" |};
          AddVehicle.errors := ∅;
          AddVehicle.isSubmitting := false;
          AddVehicle.isSuccess := false |};
     AddVehicle.clock := 0;
     AddVehicle.timers := [];
     AddVehicle.log := [] |}.

Definition successResponse : Api.Response :=
  {| Api.status := 201;
     Api.data := {| Api.success := true; Api.error := None |} |}.

(** A search from a pincode to the same pincode, for a start time well
    ahead of the clock (2026-11-03 06:42 against 2030-01-01 10:00). *)
Definition sameRouteSearch : SearchBooking.State :=
  {| SearchBooking.searchData :=
       {| SearchBooking.capacityRequired := "1000";
          SearchBooking.fromPincode := "110001";
          SearchBooking.toPincode := "110001";
          SearchBooking.startTime := "2030-01-01T10:00" |};
     SearchBooking.searchErrors := ∅;
     SearchBooking.isSearching := false;
     SearchBooking.availableVehicles := [];
     SearchBooking.hasSearched := false |}.

Definition sampleNow : jsnum := JsNum.ofZ 1793688120000.

Definition sampleISOString (t : jsnum) : string := JsNum.toString t.

(** The page after a submit, and after the answer to its request has
    arrived [latency] ms later. *)
Definition afterSubmit (w : AddVehicle.World) : AddVehicle.World :=
  AddVehicle.dispatch AddVehicle.handleSubmit w.

Definition afterResponse (response : Api.Response) (latency : Z) (w : AddVehicle.World)
    : AddVehicle.World :=
  AddVehicle.dispatch (AddVehicle.handleSubmit_fulfilled response)
    (AddVehicle.advance latency (afterSubmit w)).

(** The request a form is submitted with. *)
Definition vehicleDataOf (d : AddVehicle.FormData) : AddVehicle.VehicleData :=
  {| AddVehicle.vehicleName := JsString.trim (AddVehicle.name d);
     AddVehicle.vehicleCapacityKg := JsNum.parseInt (AddVehicle.capacityKg d);
     AddVehicle.vehicleTyres := JsNum.parseInt (AddVehicle.tyres d) |}.

(** A number that is an integer or an infinity: what [parseInt] returns
    when it reads digits. *)
Definition wholeOrInfinite (x : jsnum) : Prop :=
  match x with
  | NaN => False
  | Inf _ => True
  | Fin n => (JsNum.one | n)
  end.

(** A pincode of 310 digits: a one and 309 zeros. *)
Definition hugePincode : string := String "1" (JsString.repeat "0" 309).

(** Sample records. *)
Definition emptyName : gmap string jsval := {[ "name" := VStr EmptyString ]}.

Definition filledName : gmap string jsval := {[ "name" := VStr "Truck-001" ]}.

Definition zeroTyres : gmap string jsval := {[ "tyres" := VNum (Fin 0) ]}.

Definition blankTyres : gmap string jsval := {[ "tyres" := VStr "   " ]}.

Definition zeroCapacity : gmap string jsval := {[ "capacityKg" := VStr "0" ]}.

(** The order of the vehicle types, [Unknown] below all of them. *)
Definition typeRank (t : string) : nat :=
  if bool_decide (t = "Small") then 1
  else if bool_decide (t = "Medium") then 2
  else if bool_decide (t = "Large") then 3
  else if bool_decide (t = "Heavy Duty") then 4
  else 0.


(** The page after a submit whose request is rejected [latency] ms later,
    and after one that is answered without the success flag. *)
Definition afterRejection (error : Api.AxiosError) (latency : Z) (w : AddVehicle.World)
    : AddVehicle.World :=
  AddVehicle.dispatch (AddVehicle.handleSubmit_rejected error)
    (AddVehicle.advance latency (afterSubmit w)).

(** The toasts among the effects of the add-vehicle page. *)
Definition toasts (effects : list AddVehicle.Effect) : list AddVehicle.Effect :=
  omap (λ e, match e with
             | AddVehicle.ToastError _ | AddVehicle.ToastSuccess _ => Some e
             | _ => None
             end) effects.

(** The last entry of a list of validation errors for a path. *)
Definition lastErrorFor (path : string) (errs : list Api.ValidationError)
    : option Api.ValidationError :=
  last (filter (λ e, Api.path e = path) errs).



(** [error.response?.data?.error?.details?.validationErrors] *)
Definition serverValidationErrors (error : Api.AxiosError)
    : option (list Api.ValidationError) :=
  match Api.response error with
  | Some r =>
      match Api.error (Api.data r) with
      | Some info => Api.validationErrors info
      | None => None
      end
  | None => None
  end.

(** The page after an input of the form was edited [dt] ms later. *)
Definition afterEdit (f : AddVehicle.Field) (value : string) (dt : Z)
    (w : AddVehicle.World) : AddVehicle.World :=
  AddVehicle.dispatch (AddVehicle.handleInputChange f value) (AddVehicle.advance dt w).

(** The page on which a first vehicle was added (answer after 150 ms) and
    the name was changed 500 ms later for the next one: the form is idle
    again, the timer of the first success is still pending. *)
Definition secondVehicle : AddVehicle.World :=
  afterEdit AddVehicle.NameField "Truck-002" 500
    (afterResponse successResponse 150 acceptedVehicle).

(** A search from a pincode to the same pincode with the capacity left
    empty. *)
Definition sameRouteNoCapacity : SearchBooking.State :=
  {| SearchBooking.searchData :=
       {| SearchBooking.capacityRequired := EmptyString;
          SearchBooking.fromPincode := "110001";
          SearchBooking.toPincode := "110001";
          SearchBooking.startTime := "2030-01-01T10:00" |};
     SearchBooking.searchErrors := ∅;
     SearchBooking.isSearching := false;
     SearchBooking.availableVehicles := [];
     SearchBooking.hasSearched := false |}.

(** A search between two different pincodes, and the same search with a
    start time that is not a date. *)
Definition routeSearch : SearchBooking.State :=
  {| SearchBooking.searchData :=
       {| SearchBooking.capacityRequired := "1000";
          SearchBooking.fromPincode := "110001";
          SearchBooking.toPincode := "400001";
          SearchBooking.startTime := "2030-01-01T10:00" |};
     SearchBooking.searchErrors := ∅;
     SearchBooking.isSearching := false;
     SearchBooking.availableVehicles := [];
     SearchBooking.hasSearched := false |}.

Definition undatedSearch : SearchBooking.State :=
  SearchBooking.setSearchData
    (SearchBooking.setField SearchBooking.StartTimeField "tomorrow"
       (SearchBooking.searchData routeSearch))
    routeSearch.

(** A form whose capacity is written with an exponent. *)
Definition exponentCapacity : AddVehicle.State :=
  {| AddVehicle.formData :=
       {| AddVehicle.name := "Truck-001";
          AddVehicle.capacityKg := "1e3";
          AddVehicle.tyres := "6" |};
     AddVehicle.errors := ∅;
     AddVehicle.isSubmitting := false;
     AddVehicle.isSuccess := false |}.

End Spec.

(** * Properties *)

(** ** The run-time model on known values *)

Lemma number_conversions :
  JsNum.toString (JsNum.ofString "0.1") = "0.1"
  ∧ JsNum.toString (JsNum.add (JsNum.ofString "0.1") (JsNum.ofString "0.2"))
    = "0.30000000000000004"
  ∧ JsNum.toString (JsNum.ofString "9007199254740993") = "9007199254740992"
  ∧ JsNum.toString (JsNum.ofString "1e21") = "1e+21"
  ∧ JsNum.toString (JsNum.ofString "5e-324") = "5e-324"
  ∧ JsNum.ofString "1e309" = Inf false
  ∧ JsNum.ofString "  42  " = JsNum.ofZ 42
  ∧ JsNum.ofString "0x1F" = JsNum.ofZ 31
  ∧ JsNum.ofString "12px" = NaN
  ∧ JsNum.ofString EmptyString = Fin 0.
Proof. repeat apply conj; vm_compute; reflexivity. Qed.

Lemma parseInt_samples :
  JsNum.parseInt "110001" = JsNum.ofZ 110001
  ∧ JsNum.parseInt "  -42abc" = JsNum.ofZ (-42)
  ∧ JsNum.parseInt "0x1f" = JsNum.ofZ 31
  ∧ JsNum.parseInt "12.9" = JsNum.ofZ 12
  ∧ JsNum.parseInt "abc" = NaN
  ∧ JsNum.parseInt EmptyString = NaN.
Proof. repeat apply conj; vm_compute; reflexivity. Qed.

(** ** The validation engine *)

Import Spec.

Section ValidateForm.

Import Schema.

Context (data : gmap string jsval) (rules : gmap string FieldRule).

(** A pass of the callback either leaves [errors] alone or sets the entry
    of its own field, and what it does does not depend on [errors]. *)
Lemma validateField_cases (errs : gmap string string) (field : string) :
  Helpers.validateField data rules errs field =
    match fieldError data rules field with
    | Some m => <[field := m]> errs
    | None => errs
    end.
Proof.
  unfold fieldError, Helpers.validateField, setProperty.
  destruct (rules !! field) as [rule|]; [|by rewrite lookup_empty].
  destruct (bool_decide (field = "__proto__"));
    repeat (case_match; rewrite ?lookup_insert_eq, ?lookup_empty; try done).
Qed.

Lemma fieldError_no_rule (field : string) :
  rules !! field = None → fieldError data rules field = None.
Proof.
  intros H. unfold fieldError, Helpers.validateField. by rewrite H, lookup_empty.
Qed.

Lemma validateFields_lookup (keys : list string) (errs : gmap string string) (f : string) :
  foldl (Helpers.validateField data rules) errs keys !! f =
    if decide (f ∈ keys) then
      match fieldError data rules f with
      | Some m => Some m
      | None => errs !! f
      end
    else errs !! f.
Proof.
  revert errs. induction keys as [|k keys IH]; intros errs; cbn [foldl].
  - rewrite decide_False; [done|]. apply not_elem_of_nil.
  - rewrite IH, validateField_cases.
    destruct (decide (f = k)) as [->|Hne].
    + rewrite (decide_True (P := k ∈ k :: keys)); [|by left].
      destruct (fieldError data rules k) as [m|]; simpl.
      * rewrite lookup_insert_eq. by case_decide.
      * by case_decide.
    + destruct (decide (f ∈ keys)) as [Hin|Hnin].
      * rewrite (decide_True (P := f ∈ k :: keys)); [|by right].
        destruct (fieldError data rules f); [done|].
        destruct (fieldError data rules k); [by rewrite lookup_insert_ne|done].
      * rewrite (decide_False (P := f ∈ k :: keys)).
        2:{ intros [?|?]%elem_of_cons; done. }
        destruct (fieldError data rules k); [by rewrite lookup_insert_ne|done].
Qed.

Lemma elem_of_Object_keys {A} (o : gmap string A) (f : string) :
  f ∈ Object_keys o ↔ is_Some (o !! f).
Proof.
  unfold Object_keys. rewrite list_elem_of_fmap. split.
  - intros [[k v] [-> Hin]]. apply elem_of_map_to_list in Hin. by exists v.
  - intros [v Hv]. exists (f, v). split; [done|]. by apply elem_of_map_to_list.
Qed.

(** The entry of a field in the result is the error of that field checked
    on its own. *)
Lemma validateForm_lookup (field : string) :
  errors (Helpers.validateForm data rules) !! field = fieldError data rules field.
Proof.
  simpl. unfold Helpers.validateFields. rewrite validateFields_lookup, lookup_empty.
  case_decide as Hin.
  - by destruct (fieldError data rules field).
  - symmetry. apply fieldError_no_rule.
    rewrite elem_of_Object_keys in Hin.
    by destruct (rules !! field) as [r|]; [destruct Hin; eauto|].
Qed.

Lemma validateForm_isValid :
  isValid (Helpers.validateForm data rules) = true
  ↔ errors (Helpers.validateForm data rules) = ∅.
Proof.
  cbn [isValid errors Helpers.validateForm]. unfold Object_keys.
  rewrite Nat.eqb_eq, length_fmap. split.
  - intros Hlen. apply map_to_list_empty_iff. by apply nil_length_inv.
  - intros ->. by rewrite map_to_list_empty.
Qed.

(** The order in which [Object.keys] lists the fields does not matter. *)
Lemma validateForm_keys_irrelevant (keys : list string) :
  (∀ f, f ∈ keys ↔ is_Some (rules !! f)) →
  Helpers.validateFields keys data rules = errors (Helpers.validateForm data rules).
Proof.
  intros Hkeys. apply map_eq. intros f.
  rewrite validateForm_lookup. unfold Helpers.validateFields.
  rewrite validateFields_lookup, lookup_empty.
  case_decide as Hin.
  - by destruct (fieldError data rules f).
  - symmetry. apply fieldError_no_rule.
    rewrite Hkeys in Hin.
    by destruct (rules !! f) as [r|]; [destruct Hin; eauto|].
Qed.

End ValidateForm.

Section Engine.

Import Schema.

Context (data : gmap string jsval) (rules : gmap string FieldRule).

(** C1. For every record and rule set, the keys of the errors map of
    [validateForm] are fields of the rule set, and [isValid] is true
    exactly when the errors map is empty. *)
Theorem validateForm_errors_within_rules :
  dom (errors (Helpers.validateForm data rules)) ⊆ dom rules
  ∧ (isValid (Helpers.validateForm data rules) = true
     ↔ errors (Helpers.validateForm data rules) = ∅).
Proof.
  split.
  - intros f Hf. apply elem_of_dom in Hf. apply elem_of_dom.
    rewrite validateForm_lookup in Hf.
    destruct (rules !! f) as [r|] eqn:Hr; [by eexists|].
    rewrite (fieldError_no_rule _ _ _ Hr) in Hf. by destruct Hf.
  - apply validateForm_isValid.
Qed.

(** C5. The standalone [validateForm] and the one of the helpers module
    return the same result on every record and rule set. *)
Theorem validateForm_copies_agree :
  Validation.validateForm data rules = Helpers.validateForm data rules.
Proof.
  unfold Validation.validateForm, Helpers.validateForm.
  unfold Validation.validateFields, Helpers.validateFields.
  f_equal.
Qed.

End Engine.

Section Checks.

Import Schema.

Context (data : gmap string jsval) (rules : gmap string FieldRule).

(** Under the key [__proto__] the errors object never holds anything. *)
Lemma fieldError_proto : fieldError data rules "__proto__" = None.
Proof.
  unfold fieldError, Helpers.validateField, setProperty.
  destruct (rules !! "__proto__") as [rule|]; [|by rewrite lookup_empty].
  rewrite bool_decide_eq_true_2 by done.
  repeat (case_match; rewrite ?lookup_empty; try done).
Qed.

(** The error of a field is the first structural check that fails; the
    custom check is consulted only when all of them pass. *)
Lemma fieldError_outcome (field : string) (rule : FieldRule) :
  rules !! field = Some rule →
  field ≠ "__proto__" →
  fieldError data rules field =
    match structuralChecks field rule (getField data field) with
    | Failed m => Some m
    | Skipped => None
    | Passed =>
        match validate rule with
        | Some check => customMessage check (getField data field) data
        | None => None
        end
    end.
Proof.
  intros Hrule Hfield.
  unfold fieldError, Helpers.validateField, setProperty. rewrite Hrule.
  rewrite (bool_decide_eq_false_2 _ Hfield).
  unfold structuralChecks, requiredCheck, trimsToEmpty.
  destruct (required rule && _) eqn:Hreq; [by rewrite lookup_insert_eq|].
  destruct (negb (truthy _) && negb (required rule)) eqn:Hskip; [by rewrite lookup_empty|].
  unfold firstError, minLengthCheck, maxLengthCheck, patternCheck, numberCheck,
    whenNonZero, whenSet, customMessage.
  destruct (minLength rule) as [n|]; simpl;
    [destruct (negb (n =? 0) && _); [by rewrite lookup_insert_eq|]|];
  (destruct (maxLength rule) as [n'|]; simpl;
    [destruct (negb (n' =? 0) && _); [by rewrite lookup_insert_eq|]|]);
  (destruct (pattern rule) as [re|]; simpl;
    [destruct (re _); simpl; [|by rewrite lookup_insert_eq]|]);
  (destruct (bool_decide (type rule = Some "number"));
    [destruct (JsNum.isNaN _); [by rewrite lookup_insert_eq|];
     destruct (min rule) as [lo|]; simpl;
       [destruct (JsNum.ltb _ lo); [by rewrite lookup_insert_eq|]|];
     (destruct (max rule) as [hi|]; simpl;
       [unfold JsNum.gtb; destruct (JsNum.ltb hi _); [by rewrite lookup_insert_eq|]|])|]);
  (destruct (validate rule) as [check|]; [|by rewrite lookup_empty]);
  (destruct (check _ _) as [m|]; [|by rewrite lookup_empty]);
  (destruct (JsString.isEmpty m); [by rewrite lookup_empty|by rewrite lookup_insert_eq]).
Qed.

(** C2 (amended). For a field with a custom check (and a name other than
    [__proto__], under which the errors object stores nothing), the
    message of the custom check counts only when every structural check of
    the field has passed on the value read from the record: its non-empty
    message is then the error of the field.  When a structural check fails
    its error is the one reported, whatever the custom check returns; an
    optional empty field gets no error at all. *)
Theorem custom_check_runs_after_structural_checks
    (field : string) (rule : FieldRule)
    (check : jsval → gmap string jsval → option string) :
  rules !! field = Some rule →
  validate rule = Some check →
  field ≠ "__proto__" →
  errors (Helpers.validateForm data rules) !! field =
    match structuralChecks field rule (getField data field) with
    | Failed m => Some m
    | Skipped => None
    | Passed => customMessage check (getField data field) data
    end.
Proof.
  intros Hrule Hcheck Hfield.
  rewrite validateForm_lookup, (fieldError_outcome _ _ Hrule Hfield), Hcheck. done.
Qed.

End Checks.

(** The witness of C2: a filled-in name passes the structural checks and
    receives the message of the custom check. *)
Lemma custom_check_runs_after_structural_checks_witness :
  ({[ "name" := requiredWithCustom ]} : gmap string Schema.FieldRule) !! "name"
    = Some requiredWithCustom
  ∧ Schema.validate requiredWithCustom = Some alwaysObjects
  ∧ "name" ≠ "__proto__"
  ∧ Schema.errors (Helpers.validateForm filledName {[ "name" := requiredWithCustom ]})
      !! "name"
    = match structuralChecks "name" requiredWithCustom (getField filledName "name") with
      | Failed m => Some m
      | Skipped => None
      | Passed => customMessage alwaysObjects (getField filledName "name") filledName
      end.
Proof.
  split; [reflexivity|]. split; [reflexivity|]. split; [discriminate|].
  apply (custom_check_runs_after_structural_checks
           filledName {[ "name" := requiredWithCustom ]} "name"
           requiredWithCustom alwaysObjects); (reflexivity || discriminate).
Defined.

(** C2 (counterexample). On an empty required name the custom check
    would return a message, yet the error reported is the one of the
    required check: the custom message does not replace it. *)
Lemma custom_check_does_not_replace_required_error :
  Schema.validate requiredWithCustom = Some alwaysObjects
  ∧ alwaysObjects (getField emptyName "name") emptyName = Some "custom check failed"
  ∧ Schema.errors (Helpers.validateForm emptyName {[ "name" := requiredWithCustom ]})
      !! "name"
    = Some "name is required"
  ∧ Schema.errors (Helpers.validateForm emptyName {[ "name" := requiredWithCustom ]})
      !! "name"
    ≠ Some "custom check failed".
Proof.
  split; [reflexivity|]. split; [reflexivity|].
  assert (Schema.errors (Helpers.validateForm emptyName {[ "name" := requiredWithCustom ]})
            !! "name" = Some "name is required") as H by (vm_compute; reflexivity).
  split; [exact H|]. rewrite H. discriminate.
Qed.

Section Required.

Import Schema.

Context (data : gmap string jsval) (rules : gmap string FieldRule).

(** No built-in message other than the one of the required check reads
    ["<field> is required"]: they differ in the word after the field. *)
Lemma not_the_required_message (field rest : string) :
  wordAfterField rest ≠ Some "i"%char →
  field +:+ rest ≠ field +:+ " is required".
Proof.
  intros Hrest H. apply (inj (String.app field)) in H. subst rest. by apply Hrest.
Qed.

Lemma minLengthCheck_not_required (field : string) (rule : FieldRule) (v : jsval) :
  minLengthCheck field rule v ≠ Some (field +:+ " is required").
Proof.
  unfold minLengthCheck. destruct (minLength rule) as [n|]; [|done].
  destruct (_ && _); [|done].
  intros [= H]. by apply not_the_required_message in H.
Qed.

Lemma maxLengthCheck_not_required (field : string) (rule : FieldRule) (v : jsval) :
  maxLengthCheck field rule v ≠ Some (field +:+ " is required").
Proof.
  unfold maxLengthCheck. destruct (maxLength rule) as [n|]; [|done].
  destruct (_ && _); [|done].
  intros [= H]. by apply not_the_required_message in H.
Qed.

Lemma numberCheck_not_required (field : string) (rule : FieldRule) (v : jsval) :
  numberCheck field rule v ≠ Some (field +:+ " is required").
Proof.
  unfold numberCheck. destruct (bool_decide _); [|done].
  destruct (JsNum.isNaN _).
  { intros [= H]. by apply not_the_required_message in H. }
  destruct (min rule) as [lo|]; [destruct (JsNum.ltb _ lo)|].
  { intros [= H]. by apply not_the_required_message in H. }
  all: destruct (max rule) as [hi|]; [destruct (JsNum.gtb _ hi)|]; try done.
  all: intros [= H]; by apply not_the_required_message in H.
Qed.

Lemma patternCheck_required (field : string) (rule : FieldRule) (v : jsval) :
  patternCheck field rule v = Some (field +:+ " is required") →
  message rule = Some (field +:+ " is required").
Proof.
  unfold patternCheck. destruct (pattern rule) as [re|]; [|done].
  destruct (re _); [done|]. unfold orElse.
  destruct (message rule) as [m|]; [destruct (JsString.isEmpty m)|].
  - intros [= H]. by apply not_the_required_message in H.
  - by intros [= ->].
  - intros [= H]. by apply not_the_required_message in H.
Qed.

(** C3 (amended). For a field whose rule marks it required (and whose
    name is not [__proto__]), the required check fails, and ["<field> is
    required"] is the error of the field, exactly when the value read from
    the record, [data[field]], is falsy ([undefined], [null], [false], [0],
    [NaN] or the empty string) or its string conversion trims to the empty
    string.  For any other value that text is reported only if the message
    of the rule or its custom check returns this very text.  The value
    read is [undefined] for a key that the record does not have and does
    not inherit from [Object.prototype]. *)
Theorem required_check_fails_on_falsy_or_blank (field : string) (rule : FieldRule) :
  rules !! field = Some rule →
  required rule = true →
  field ≠ "__proto__" →
  (negb (truthy (getField data field)) || trimsToEmpty (getField data field) = true →
   errors (Helpers.validateForm data rules) !! field = Some (field +:+ " is required"))
  ∧ (negb (truthy (getField data field)) || trimsToEmpty (getField data field) = false →
     errors (Helpers.validateForm data rules) !! field = Some (field +:+ " is required") →
     message rule = Some (field +:+ " is required")
     ∨ ∃ check, validate rule = Some check
                ∧ check (getField data field) data = Some (field +:+ " is required")).
Proof.
  intros Hrule Hreq Hfield.
  rewrite validateForm_lookup, (fieldError_outcome _ _ _ _ Hrule Hfield).
  unfold structuralChecks, requiredCheck. rewrite Hreq.
  split; intros Hblank.
  - by rewrite Hblank.
  - rewrite Hblank. cbn [andb negb]. rewrite andb_false_r.
    cbn [firstError].
    destruct (minLengthCheck _ _ _) as [m1|] eqn:H1.
    { intros [= ->]. by apply minLengthCheck_not_required in H1. }
    destruct (maxLengthCheck _ _ _) as [m2|] eqn:H2.
    { intros [= ->]. by apply maxLengthCheck_not_required in H2. }
    destruct (patternCheck _ _ _) as [m3|] eqn:H3.
    { intros [= ->]. left. by apply patternCheck_required in H3. }
    destruct (numberCheck _ _ _) as [m4|] eqn:H4.
    { intros [= ->]. by apply numberCheck_not_required in H4. }
    destruct (validate rule) as [check|]; [|done].
    intros H. right. exists check. split; [done|].
    unfold customMessage in H. destruct (check _ _) as [m|]; [|done].
    by destruct (JsString.isEmpty m).
Qed.

End Required.

Lemma trimEnd_empty (s : string) :
  JsString.trimEnd s = EmptyString ↔ allWhiteSpace s = true.
Proof.
  induction s as [|c s IH]; cbn [JsString.trimEnd allWhiteSpace]; [done|].
  destruct (JsString.trimEnd s) as [|c' r].
  - destruct IH as [IH _]. rewrite IH by done.
    destruct (JsString.isWhiteSpace c); cbn; split; done.
  - destruct (allWhiteSpace s).
    + destruct IH as [_ IH]. by specialize (IH eq_refl).
    + rewrite andb_false_r. split; done.
Qed.

(** A string trims to the empty string exactly when it is composed only
    of white space. *)
Lemma trim_empty (s : string) :
  JsString.trim s = EmptyString ↔ allWhiteSpace s = true.
Proof.
  unfold JsString.trim. rewrite trimEnd_empty.
  induction s as [|c s IH]; cbn [JsString.trimStart allWhiteSpace]; [done|].
  destruct (JsString.isWhiteSpace c) eqn:Hc; cbn [andb]; [exact IH|].
  cbn [allWhiteSpace]. rewrite Hc. done.
Qed.

(** A required field that holds the empty string or only white space is
    reported as required. *)
Lemma whitespace_only_is_required
    (data : gmap string jsval) (rules : gmap string Schema.FieldRule)
    (field : string) (rule : Schema.FieldRule) (s : string) :
  rules !! field = Some rule →
  Schema.required rule = true →
  field ≠ "__proto__" →
  data !! field = Some (VStr s) →
  allWhiteSpace s = true →
  Schema.errors (Helpers.validateForm data rules) !! field
    = Some (field +:+ " is required").
Proof.
  intros Hrule Hreq Hfield Hdata Hs.
  rewrite validateForm_lookup, (fieldError_outcome _ _ _ _ Hrule Hfield).
  unfold structuralChecks, requiredCheck, trimsToEmpty, getField.
  rewrite Hreq, Hdata. cbn [toString andb].
  apply trim_empty in Hs. rewrite Hs. cbn [JsString.isEmpty].
  by rewrite orb_true_r.
Qed.

(** The witness of C3: a required field that holds only spaces. *)
Lemma required_check_fails_on_falsy_or_blank_witness :
  ({[ "tyres" := requiredOnly ]} : gmap string Schema.FieldRule) !! "tyres"
    = Some requiredOnly
  ∧ Schema.required requiredOnly = true
  ∧ "tyres" ≠ "__proto__"
  ∧ negb (truthy (getField blankTyres "tyres")) || trimsToEmpty (getField blankTyres "tyres")
    = true
  ∧ Schema.errors (Helpers.validateForm blankTyres {[ "tyres" := requiredOnly ]}) !! "tyres"
    = Some "tyres is required".
Proof.
  split; [reflexivity|]. split; [reflexivity|]. split; [discriminate|].
  split; [reflexivity|].
  apply (required_check_fails_on_falsy_or_blank
           blankTyres {[ "tyres" := requiredOnly ]} "tyres" requiredOnly);
    (reflexivity || discriminate).
Defined.

(** C3 (counterexample). The number [0] is present (neither [undefined]
    nor [null]) and its string form ["0"] does not trim to the empty
    string, yet a required field that holds it is reported as required. *)
Lemma required_reported_for_number_zero :
  getField zeroTyres "tyres" = VNum (Fin 0)
  ∧ isAbsent (getField zeroTyres "tyres") = false
  ∧ JsString.trim (toString (getField zeroTyres "tyres")) = "0"
  ∧ trimsToEmpty (getField zeroTyres "tyres") = false
  ∧ Schema.errors (Helpers.validateForm zeroTyres {[ "tyres" := requiredOnly ]}) !! "tyres"
    = Some "tyres is required".
Proof. split; [|split; [|split; [|split]]]; vm_compute; reflexivity. Qed.

(** A key that the record does not have is read through the prototype:
    [data.constructor] is the function [Object], a truthy value whose
    string form is not blank, so a required field of that name passes on
    the empty record, where a field of any name that is not inherited
    fails. *)
Lemma inherited_value_is_not_missing :
  getField ∅ "constructor" = nativeFunction "Object"
  ∧ Schema.isValid (Helpers.validateForm ∅ {[ "constructor" := requiredOnly ]}) = true
  ∧ Schema.errors (Helpers.validateForm ∅ {[ "tyres" := requiredOnly ]}) !! "tyres"
    = Some "tyres is required".
Proof. split; [|split]; vm_compute; reflexivity. Qed.

Section NumberRule.

Import Schema.

Context (data : gmap string jsval) (rules : gmap string FieldRule).

Lemma capacityRule_outcome (field : string) (v : jsval) :
  truthy v = true →
  structuralChecks field capacityRule v =
    match numberCheck field capacityRule v with
    | Some m => Failed m
    | None => Passed
    end.
Proof.
  intros Hv. unfold structuralChecks, requiredCheck.
  cbn [required capacityRule andb]. rewrite Hv.
  destruct (numberCheck field capacityRule v); reflexivity.
Qed.

(** C4. For a field with the rule [{type: "number", min: 1, max: 50000}]
    (any field name but [__proto__], under which the errors object stores
    nothing): the value ["0"] yields ["<field> must be at least 1"], the
    value ["50001"] yields ["<field> cannot exceed 50000"] and the value
    ["abc"] yields ["<field> must be a valid number"]. *)
Theorem number_rule_messages (field : string) :
  rules !! field = Some capacityRule →
  field ≠ "__proto__" →
  (data !! field = Some (VStr "0") →
   errors (Helpers.validateForm data rules) !! field
     = Some (field +:+ " must be at least 1"))
  ∧ (data !! field = Some (VStr "50001") →
     errors (Helpers.validateForm data rules) !! field
       = Some (field +:+ " cannot exceed 50000"))
  ∧ (data !! field = Some (VStr "abc") →
     errors (Helpers.validateForm data rules) !! field
       = Some (field +:+ " must be a valid number")).
Proof.
  intros Hrule Hfield.
  rewrite validateForm_lookup, (fieldError_outcome _ _ _ _ Hrule Hfield).
  unfold getField.
  assert (JsNum.toString (JsNum.ofZ 1) = "1") as Hlo by (vm_compute; reflexivity).
  assert (JsNum.toString (JsNum.ofZ 50000) = "50000") as Hhi by (vm_compute; reflexivity).
  repeat split; intros ->;
    rewrite capacityRule_outcome by done;
    unfold numberCheck; cbn [type min max capacityRule];
    rewrite bool_decide_eq_true_2 by done.
  - replace (JsNum.isNaN (Number (VStr "0"))) with false by (vm_compute; reflexivity).
    replace (JsNum.ltb (Number (VStr "0")) (JsNum.ofZ 1)) with true
      by (vm_compute; reflexivity).
    cbv beta iota. by rewrite Hlo.
  - replace (JsNum.isNaN (Number (VStr "50001"))) with false by (vm_compute; reflexivity).
    replace (JsNum.ltb (Number (VStr "50001")) (JsNum.ofZ 1)) with false
      by (vm_compute; reflexivity).
    replace (JsNum.gtb (Number (VStr "50001")) (JsNum.ofZ 50000)) with true
      by (vm_compute; reflexivity).
    cbv beta iota. by rewrite Hhi.
  - by replace (JsNum.isNaN (Number (VStr "abc"))) with true by (vm_compute; reflexivity).
Qed.

End NumberRule.

(** The witness of C4: the field [capacityKg] holding ["0"]. *)
Lemma number_rule_messages_witness :
  ({[ "capacityKg" := capacityRule ]} : gmap string Schema.FieldRule) !! "capacityKg"
    = Some capacityRule
  ∧ "capacityKg" ≠ "__proto__"
  ∧ zeroCapacity !! "capacityKg" = Some (VStr "0")
  ∧ Schema.errors (Helpers.validateForm zeroCapacity {[ "capacityKg" := capacityRule ]})
      !! "capacityKg"
    = Some "capacityKg must be at least 1".
Proof.
  split; [reflexivity|]. split; [discriminate|]. split; [reflexivity|].
  apply (number_rule_messages zeroCapacity {[ "capacityKg" := capacityRule ]} "capacityKg");
    (reflexivity || discriminate).
Defined.

(** ** The response interceptor *)

(** C9 (amended). For a response with an error status, the message the
    interceptor reports is the generic message of the status; a non-empty
    message in the body of the response replaces it for 400, for 409 and
    for the statuses without a message of their own, while for 401, 403,
    404, 422, 429 and 500 the generic message is reported whatever the
    body says. *)
Theorem interceptor_message (r : Api.Response) (request : bool) (msg : string) :
  Api.errMessage
    (Api.responseError
       {| Api.response := Some r; Api.request := request; Api.errMessage := msg |})
  = if fixedMessageStatus (Api.status r) then genericMessage (Api.status r)
    else Schema.orElse (Api.serverMessage (Api.data r)) (genericMessage (Api.status r)).
Proof.
  unfold Api.responseError. cbn [Api.response].
  destruct (Api.status r) as [|p|p]; try reflexivity.
  do 10 (try destruct p as [p|p|]; try reflexivity).
Qed.

(** C9 (counterexample). A 404 response whose body carries the message
    ["Vehicle not found"] is reported as ["Resource not found"]. *)
Lemma interceptor_ignores_server_message_on_404 :
  Api.responseMessage notFoundError = Some "Vehicle not found"
  ∧ Api.errMessage (Api.responseError notFoundError) = "Resource not found"
  ∧ Api.errMessage (Api.responseError notFoundError) ≠ "Vehicle not found".
Proof. repeat split. discriminate. Qed.

(** X7. The helper [getErrorMessage] is where the message of the server
    wins for every status: applied to what the interceptor rejects with,
    it returns the non-empty message of the response body, and the
    generic message of the status otherwise. *)
Lemma getErrorMessage_prefers_server_message
    (r : Api.Response) (request : bool) (msg : string) :
  Api.getErrorMessage
    (Api.responseError
       {| Api.response := Some r; Api.request := request; Api.errMessage := msg |})
  = Schema.orElse (Api.serverMessage (Api.data r)) (genericMessage (Api.status r)).
Proof.
  unfold Api.getErrorMessage, Api.responseMessage.
  assert (Api.response
            (Api.responseError
               {| Api.response := Some r; Api.request := request; Api.errMessage := msg |})
          = Some r) as ->.
  { unfold Api.responseError. cbn [Api.response].
    destruct (Api.status r) as [|p|p]; try reflexivity.
    do 10 (try destruct p as [p|p|]; try reflexivity). }
  assert (interceptor :=
    eq_refl (Api.errMessage
       (Api.responseError
          {| Api.response := Some r; Api.request := request; Api.errMessage := msg |}))).
  revert interceptor. generalize (Api.errMessage
       (Api.responseError
          {| Api.response := Some r; Api.request := request; Api.errMessage := msg |})) at 1 3.
  intros m ->. unfold Api.responseError. cbn [Api.response].
  unfold Schema.orElse.
  destruct (Api.serverMessage (Api.data r)) as [s|]; [destruct (JsString.isEmpty s) eqn:Hs|].
  all: destruct (Api.status r) as [|p|p]; try (cbn; rewrite ?Hs; reflexivity).
  all: do 10 (try destruct p as [p|p|]; try (cbn; rewrite ?Hs; reflexivity)).
Qed.

(** ** The add-vehicle form *)

Section AddVehicleSubmit.

Import AddVehicle.

(** C6. A submit attempt on the add-vehicle form whose form state fails
    validation leaves the submission state as it is (an idle form stays
    idle, [isSubmitting] is not touched), puts the error of every failing
    field into the error map, raises the single notification ["Please fix
    the errors in the form"] and issues no request. *)
Theorem invalid_submit_is_rejected (st : State) :
  Schema.isValid (Helpers.validateForm (toObject (formData st)) validationRules) = false →
  handleSubmit st
    = (setErrors (Schema.errors
                    (Helpers.validateForm (toObject (formData st)) validationRules)) st,
       [ToastError "Please fix the errors in the form"])
  ∧ isSubmitting (handleSubmit st).1 = isSubmitting st
  ∧ submissionState (handleSubmit st).1 = submissionState st
  ∧ formData (handleSubmit st).1 = formData st
  ∧ errors (handleSubmit st).1 ≠ ∅
  ∧ (∀ field, errors (handleSubmit st).1 !! field
              = fieldError (toObject (formData st)) validationRules field)
  ∧ errorToasts (handleSubmit st).2 = ["Please fix the errors in the form"]
  ∧ requests (handleSubmit st).2 = [].
Proof.
  intros Hinvalid.
  assert (handleSubmit st
    = (setErrors (Schema.errors
                    (Helpers.validateForm (toObject (formData st)) validationRules)) st,
       [ToastError "Please fix the errors in the form"])) as Hrun.
  { unfold handleSubmit. rewrite Hinvalid. reflexivity. }
  rewrite Hrun. cbn [fst snd setErrors isSubmitting formData errors].
  repeat split.
  - intros Hempty. apply validateForm_isValid in Hempty. congruence.
  - intros field. apply validateForm_lookup.
Qed.

End AddVehicleSubmit.

(** The witness of C6: the form of the scenario. *)
Lemma invalid_submit_is_rejected_witness :
  Schema.isValid
    (Helpers.validateForm (AddVehicle.toObject (AddVehicle.formData rejectedVehicle))
       AddVehicle.validationRules) = false
  ∧ AddVehicle.isSubmitting (AddVehicle.handleSubmit rejectedVehicle).1 = false
  ∧ AddVehicle.requests (AddVehicle.handleSubmit rejectedVehicle).2 = [].
Proof.
  assert (Schema.isValid
    (Helpers.validateForm (AddVehicle.toObject (AddVehicle.formData rejectedVehicle))
       AddVehicle.validationRules) = false) as H by (vm_compute; reflexivity).
  split; [exact H|].
  destruct (invalid_submit_is_rejected rejectedVehicle H)
    as (_ & Hsub & _ & _ & _ & _ & _ & Hreq).
  split; [exact Hsub | exact Hreq].
Defined.

(** The scenario of C6: the three fields fail, each with its own error. *)
Lemma invalid_submit_scenario :
  AddVehicle.errors (AddVehicle.handleSubmit rejectedVehicle).1
    = {[ "name" := "name is required";
         "capacityKg" := "capacityKg cannot exceed 50000";
         "tyres" := "tyres must be at least 2" ]}
  ∧ (AddVehicle.handleSubmit rejectedVehicle).2
    = [AddVehicle.ToastError "Please fix the errors in the form"]
  ∧ AddVehicle.submissionState (AddVehicle.handleSubmit rejectedVehicle).1 = AddVehicle.Idle.
Proof. split; [|split]; vm_compute; reflexivity. Qed.

Section AddVehicleCycle.

Import AddVehicle.

Lemma advance_without_timers (dt : Z) (w : World) :
  timers w = [] →
  advance dt w = {| ui := ui w; clock := clock w + dt; timers := []; log := log w |}.
Proof. intros H. unfold advance. rewrite H. reflexivity. Qed.

Lemma advance_before_due (dt : Z) (w : World) (due : Z) (cb : Callback) :
  timers w = [(due, cb)] →
  clock w + dt < due →
  advance dt w
    = {| ui := ui w; clock := clock w + dt; timers := [(due, cb)]; log := log w |}.
Proof.
  intros H Hlt. unfold advance. rewrite H.
  rewrite !filter_cons, !filter_nil. cbn [fst].
  rewrite (decide_False (P := due ≤ clock w + dt)) by lia.
  rewrite (decide_True (P := ¬ due ≤ clock w + dt)) by lia. reflexivity.
Qed.

Lemma advance_when_due (dt : Z) (w : World) (due : Z) (cb : Callback) :
  timers w = [(due, cb)] →
  due ≤ clock w + dt →
  advance dt w
    = dispatch (runCallback cb)
        {| ui := ui w; clock := clock w + dt; timers := []; log := log w |}.
Proof.
  intros H Hle. unfold advance. rewrite H.
  rewrite !filter_cons, !filter_nil. cbn [fst].
  rewrite (decide_True (P := due ≤ clock w + dt)) by lia.
  rewrite (decide_False (P := ¬ due ≤ clock w + dt)) by lia. reflexivity.
Qed.

Lemma requests_app (l k : list Effect) : requests (l ++ k) = requests l ++ requests k.
Proof. unfold requests. apply omap_app. Qed.

Lemma advance_first_of_two (dt : Z) (w : World) (d1 d2 : Z) (cb1 cb2 : Callback) :
  timers w = [(d1, cb1); (d2, cb2)] →
  d1 ≤ clock w + dt →
  clock w + dt < d2 →
  advance dt w
    = dispatch (runCallback cb1)
        {| ui := ui w; clock := clock w + dt; timers := [(d2, cb2)]; log := log w |}.
Proof.
  intros H Hle Hlt. unfold advance. rewrite H.
  rewrite !filter_cons, !filter_nil. cbn [fst].
  rewrite (decide_True (P := d1 ≤ clock w + dt)) by lia.
  rewrite (decide_False (P := ¬ d1 ≤ clock w + dt)) by lia.
  rewrite (decide_False (P := d2 ≤ clock w + dt)) by lia.
  rewrite (decide_True (P := ¬ d2 ≤ clock w + dt)) by lia. reflexivity.
Qed.

(** X18. On a page with no timer pending, a valid add-vehicle submission
    that receives a success response takes the form from Idle to Submitting
    (one request is issued), then to Succeeded when the response arrives,
    and a timer set for 2000 ms after the response brings it back to Idle
    with the three fields cleared: before the 2000 ms are over the form is
    still Succeeded with its values, from 2000 ms on it is Idle and
    empty. *)
Theorem successful_submission_cycle (w : World) (response : Api.Response) (latency : Z) :
  submissionState (ui w) = Idle →
  timers w = [] →
  Schema.isValid (Helpers.validateForm (toObject (formData (ui w))) validationRules) = true →
  Api.success (Api.data response) = true →
  submissionState (ui (afterSubmit w)) = Submitting
  ∧ requests (log (afterSubmit w)) = requests (log w) ++ [vehicleDataOf (formData (ui w))]
  ∧ submissionState (ui (afterResponse response latency w)) = Succeeded
  ∧ formData (ui (afterResponse response latency w)) = formData (ui w)
  ∧ timers (afterResponse response latency w) = [(clock w + latency + 2000, ResetForm)]
  ∧ (∀ dt, dt < 2000 →
       submissionState (ui (advance dt (afterResponse response latency w))) = Succeeded
       ∧ formData (ui (advance dt (afterResponse response latency w))) = formData (ui w))
  ∧ (∀ dt, 2000 ≤ dt →
       submissionState (ui (advance dt (afterResponse response latency w))) = Idle
       ∧ formData (ui (advance dt (afterResponse response latency w))) = emptyForm
       ∧ timers (advance dt (afterResponse response latency w)) = []
       ∧ requests (log (advance dt (afterResponse response latency w)))
         = requests (log w) ++ [vehicleDataOf (formData (ui w))]).
Proof.
  destruct w as [[fd errs sub suc] clk tms lg].
  cbn [ui timers formData clock log].
  intros Hidle ->.
  assert (sub = false ∧ suc = false) as [-> ->].
  { unfold submissionState in Hidle. cbn [isSubmitting isSuccess] in Hidle.
    destruct sub, suc; try discriminate Hidle. split; reflexivity. }
  clear Hidle. intros Hvalid Hsuccess.
  assert (afterSubmit
            {| ui := {| formData := fd; errors := errs;
                        isSubmitting := false; isSuccess := false |};
               clock := clk; timers := []; log := lg |}
          = {| ui := {| formData := fd; errors := ∅;
                        isSubmitting := true; isSuccess := false |};
               clock := clk; timers := [];
               log := lg ++ [AddVehicleRequest (vehicleDataOf fd)] |}) as Hsub.
  { unfold afterSubmit, dispatch, handleSubmit. cbn [ui formData].
    rewrite Hvalid. cbn [negb]. reflexivity. }
  assert (afterResponse response latency
            {| ui := {| formData := fd; errors := errs;
                        isSubmitting := false; isSuccess := false |};
               clock := clk; timers := []; log := lg |}
          = {| ui := {| formData := fd; errors := ∅;
                        isSubmitting := false; isSuccess := true |};
               clock := clk + latency;
               timers := [(clk + latency + 2000, ResetForm)];
               log := (lg ++ [AddVehicleRequest (vehicleDataOf fd)])
                        ++ [ToastSuccess "Vehicle added successfully!";
                            SetTimeout ResetForm 2000] |}) as Hres.
  { unfold afterResponse. rewrite Hsub.
    rewrite advance_without_timers by reflexivity.
    unfold dispatch, handleSubmit_fulfilled. rewrite Hsuccess. reflexivity. }
  rewrite Hsub, Hres. cbn [ui timers formData clock log].
  split; [reflexivity|]. split.
  { rewrite requests_app. reflexivity. }
  split; [reflexivity|]. split; [reflexivity|]. split; [reflexivity|]. split.
  - intros dt Hdt.
    rewrite (advance_before_due dt _ (clk + latency + 2000) ResetForm)
      by (cbn [timers clock]; (reflexivity || lia)).
    split; reflexivity.
  - intros dt Hdt.
    rewrite (advance_when_due dt _ (clk + latency + 2000) ResetForm)
      by (cbn [timers clock]; (reflexivity || lia)).
    unfold dispatch, runCallback. cbn.
    rewrite !requests_app. cbn. rewrite !app_nil_r. repeat split.
Qed.

(** C7 (the code departs from the claim). The timer of a success is never
    cancelled.  When the form is idle again with such a timer still
    pending (due at [due]) and a valid submission is answered with success
    before the timer runs, the form becomes Succeeded, but the old timer
    clears the three fields and brings the form back to Idle at [due],
    less than 2000 ms after the success response. *)
Theorem stale_timer_ends_success_early
    (w : World) (response : Api.Response) (latency due : Z) :
  submissionState (ui w) = Idle →
  timers w = [(due, ResetForm)] →
  Schema.isValid (Helpers.validateForm (toObject (formData (ui w))) validationRules) = true →
  Api.success (Api.data response) = true →
  clock w + latency < due →
  submissionState (ui (afterSubmit w)) = Submitting
  ∧ submissionState (ui (afterResponse response latency w)) = Succeeded
  ∧ formData (ui (afterResponse response latency w)) = formData (ui w)
  ∧ timers (afterResponse response latency w)
    = [(due, ResetForm); (clock w + latency + 2000, ResetForm)]
  ∧ (∀ dt, due ≤ clock w + latency + dt → dt < 2000 →
       submissionState (ui (advance dt (afterResponse response latency w))) = Idle
       ∧ formData (ui (advance dt (afterResponse response latency w))) = emptyForm).
Proof.
  destruct w as [[fd errs sub suc] clk tms lg].
  cbn [ui timers formData clock log].
  intros Hidle ->.
  assert (sub = false ∧ suc = false) as [-> ->].
  { unfold submissionState in Hidle. cbn [isSubmitting isSuccess] in Hidle.
    destruct sub, suc; try discriminate Hidle. split; reflexivity. }
  clear Hidle. intros Hvalid Hsuccess Hpending.
  assert (afterSubmit
            {| ui := {| formData := fd; errors := errs;
                        isSubmitting := false; isSuccess := false |};
               clock := clk; timers := [(due, ResetForm)]; log := lg |}
          = {| ui := {| formData := fd; errors := ∅;
                        isSubmitting := true; isSuccess := false |};
               clock := clk; timers := [(due, ResetForm)];
               log := lg ++ [AddVehicleRequest (vehicleDataOf fd)] |}) as Hsub.
  { unfold afterSubmit, dispatch, handleSubmit. cbn [ui formData].
    rewrite Hvalid. cbn [negb]. reflexivity. }
  assert (afterResponse response latency
            {| ui := {| formData := fd; errors := errs;
                        isSubmitting := false; isSuccess := false |};
               clock := clk; timers := [(due, ResetForm)]; log := lg |}
          = {| ui := {| formData := fd; errors := ∅;
                        isSubmitting := false; isSuccess := true |};
               clock := clk + latency;
               timers := [(due, ResetForm); (clk + latency + 2000, ResetForm)];
               log := (lg ++ [AddVehicleRequest (vehicleDataOf fd)])
                        ++ [ToastSuccess "Vehicle added successfully!";
                            SetTimeout ResetForm 2000] |}) as Hres.
  { unfold afterResponse. rewrite Hsub.
    rewrite (advance_before_due latency _ due ResetForm)
      by (cbn [timers clock]; (reflexivity || lia)).
    unfold dispatch, handleSubmit_fulfilled. rewrite Hsuccess. reflexivity. }
  rewrite Hsub, Hres. clear Hvalid Hsub Hres. cbn [ui timers formData clock log].
  split; [reflexivity|]. split; [reflexivity|]. split; [reflexivity|].
  split; [reflexivity|].
  intros dt Hdue Hdt.
  rewrite (advance_first_of_two dt _ due (clk + latency + 2000) ResetForm ResetForm)
    by (cbn [timers clock]; (reflexivity || lia)).
  split; reflexivity.
Qed.

End AddVehicleCycle.

(** The witness of C7: the second vehicle, answered after 150 ms, 800 ms
    after the page was opened; the timer of the first success, due at
    2150 ms, clears the form 1350 ms after the second success. *)
Lemma stale_timer_ends_success_early_witness :
  AddVehicle.submissionState (AddVehicle.ui secondVehicle) = AddVehicle.Idle
  ∧ AddVehicle.timers secondVehicle = [(2150, AddVehicle.ResetForm)]
  ∧ Schema.isValid
      (Helpers.validateForm
         (AddVehicle.toObject (AddVehicle.formData (AddVehicle.ui secondVehicle)))
         AddVehicle.validationRules) = true
  ∧ Api.success (Api.data successResponse) = true
  ∧ AddVehicle.clock secondVehicle + 150 < 2150
  ∧ AddVehicle.submissionState
      (AddVehicle.ui (afterResponse successResponse 150 secondVehicle))
    = AddVehicle.Succeeded
  ∧ AddVehicle.submissionState
      (AddVehicle.ui
         (AddVehicle.advance 1350 (afterResponse successResponse 150 secondVehicle)))
    = AddVehicle.Idle
  ∧ AddVehicle.formData
      (AddVehicle.ui
         (AddVehicle.advance 1350 (afterResponse successResponse 150 secondVehicle)))
    = AddVehicle.emptyForm.
Proof.
  assert (Schema.isValid
      (Helpers.validateForm
         (AddVehicle.toObject (AddVehicle.formData (AddVehicle.ui secondVehicle)))
         AddVehicle.validationRules) = true) as Hvalid by (vm_compute; reflexivity).
  assert (AddVehicle.timers secondVehicle = [(2150, AddVehicle.ResetForm)]) as Htimers
    by (vm_compute; reflexivity).
  assert (AddVehicle.clock secondVehicle + 150 < 2150) as Hclock
    by (vm_compute; reflexivity).
  assert (AddVehicle.submissionState (AddVehicle.ui secondVehicle) = AddVehicle.Idle)
    as Hidle by (vm_compute; reflexivity).
  destruct (stale_timer_ends_success_early secondVehicle successResponse 150 2150
              Hidle Htimers Hvalid eq_refl Hclock)
    as (_ & H2 & _ & _ & H5).
  assert (2150 ≤ AddVehicle.clock secondVehicle + 150 + 1350) as Hdue
    by (vm_compute; discriminate).
  destruct (H5 1350 Hdue ltac:(lia)) as (H6 & H7).
  split; [exact Hidle|]. split; [exact Htimers|]. split; [exact Hvalid|].
  split; [reflexivity|]. split; [exact Hclock|]. split; [exact H2|].
  split; [exact H6 | exact H7].
Defined.

(** A valid form on a page just opened, answered after 150 ms. *)
Lemma successful_submission_cycle_witness :
  AddVehicle.submissionState (AddVehicle.ui acceptedVehicle) = AddVehicle.Idle
  ∧ AddVehicle.timers acceptedVehicle = []
  ∧ Schema.isValid
      (Helpers.validateForm
         (AddVehicle.toObject (AddVehicle.formData (AddVehicle.ui acceptedVehicle)))
         AddVehicle.validationRules) = true
  ∧ Api.success (Api.data successResponse) = true
  ∧ AddVehicle.submissionState (AddVehicle.ui (afterSubmit acceptedVehicle))
    = AddVehicle.Submitting
  ∧ AddVehicle.submissionState
      (AddVehicle.ui (afterResponse successResponse 150 acceptedVehicle))
    = AddVehicle.Succeeded
  ∧ AddVehicle.formData
      (AddVehicle.ui
         (AddVehicle.advance 2000 (afterResponse successResponse 150 acceptedVehicle)))
    = AddVehicle.emptyForm.
Proof.
  assert (Schema.isValid
      (Helpers.validateForm
         (AddVehicle.toObject (AddVehicle.formData (AddVehicle.ui acceptedVehicle)))
         AddVehicle.validationRules) = true) as Hvalid by (vm_compute; reflexivity).
  destruct (successful_submission_cycle acceptedVehicle successResponse 150
              eq_refl eq_refl Hvalid eq_refl)
    as (H1 & _ & H3 & _ & _ & _ & H7).
  destruct (H7 2000 ltac:(lia)) as (_ & H8 & _).
  split; [reflexivity|]. split; [reflexivity|]. split; [exact Hvalid|].
  split; [reflexivity|]. split; [exact H1|]. split; [exact H3 | exact H8].
Defined.

(** ** The search form *)

Section SearchSubmit.

Import SearchBooking.

Context (parseDate : string → jsnum) (now : jsnum) (toISOString : jsnum → string).

(** C8 (amended). A submit of the search form that passes the schema
    validation as a whole (capacity and start time as well as the two
    pincodes) and whose pincodes are identical is rejected after it, by a
    check of its own: the schema validation leaves no error, the error map
    becomes the single entry of [toPincode], ["Destination must be
    different from pickup location"], one error notification is raised,
    which is not the one of the schema validation, and no request is
    issued. *)
Theorem identical_pincodes_are_rejected (st : State) :
  Schema.isValid
    (Helpers.validateForm (toObject (searchData st)) (searchValidationRules parseDate now))
    = true →
  fromPincode (searchData st) = toPincode (searchData st) →
  Schema.errors
    (Helpers.validateForm (toObject (searchData st)) (searchValidationRules parseDate now))
    = ∅
  ∧ handleSearch parseDate now toISOString st
    = (setSearchErrors
         {[ "toPincode" := "Destination must be different from pickup location" ]} st,
       [ToastError "Pickup and destination locations must be different"])
  ∧ searchErrors (handleSearch parseDate now toISOString st).1 !! "toPincode"
    = Some "Destination must be different from pickup location"
  ∧ isSearching (handleSearch parseDate now toISOString st).1 = isSearching st
  ∧ errorToasts (handleSearch parseDate now toISOString st).2
    = ["Pickup and destination locations must be different"]
  ∧ errorToasts (handleSearch parseDate now toISOString st).2
    ≠ ["Please fix the errors in the search form"]
  ∧ requests (handleSearch parseDate now toISOString st).2 = [].
Proof.
  intros Hvalid Hsame.
  assert (handleSearch parseDate now toISOString st
    = (setSearchErrors
         {[ "toPincode" := "Destination must be different from pickup location" ]} st,
       [ToastError "Pickup and destination locations must be different"])) as Hrun.
  { unfold handleSearch. rewrite Hvalid. cbn [negb].
    unfold JsString.eqb. rewrite bool_decide_eq_true_2 by exact Hsame. reflexivity. }
  split; [by apply validateForm_isValid|].
  rewrite Hrun. clear Hvalid Hrun.
  cbn [fst snd setSearchErrors searchErrors isSearching].
  split; [reflexivity|]. split; [apply lookup_singleton_eq|].
  split; [reflexivity|]. split; [reflexivity|]. split; [|reflexivity].
  cbn. intros [= H].
Qed.

End SearchSubmit.

(** The witness of C8: a search from 110001 to 110001 with a capacity
    and a start time that pass. *)
Lemma identical_pincodes_are_rejected_witness :
  Schema.isValid
    (Helpers.validateForm
       (SearchBooking.toObject (SearchBooking.searchData sameRouteSearch))
       (SearchBooking.searchValidationRules SearchBooking.parseDateTimeLocal sampleNow))
    = true
  ∧ SearchBooking.fromPincode (SearchBooking.searchData sameRouteSearch)
    = SearchBooking.toPincode (SearchBooking.searchData sameRouteSearch)
  ∧ SearchBooking.requests
      (SearchBooking.handleSearch SearchBooking.parseDateTimeLocal sampleNow
         sampleISOString sameRouteSearch).2
    = [].
Proof.
  assert (Schema.isValid
    (Helpers.validateForm
       (SearchBooking.toObject (SearchBooking.searchData sameRouteSearch))
       (SearchBooking.searchValidationRules SearchBooking.parseDateTimeLocal sampleNow))
    = true) as Hvalid by (vm_compute; reflexivity).
  split; [exact Hvalid|]. split; [reflexivity|].
  destruct (identical_pincodes_are_rejected SearchBooking.parseDateTimeLocal sampleNow
              sampleISOString sameRouteSearch Hvalid eq_refl)
    as (_ & _ & _ & _ & _ & _ & Hreq).
  exact Hreq.
Defined.

(** C8 (counterexample). Identical pincodes that pass the schema
    validation, in a form whose capacity is empty: the submit ends at the
    schema validation, with the capacity error and its notification; no
    error is set on [toPincode] and the notification of the pincode check
    is not raised. *)
Lemma identical_pincodes_behind_schema_error :
  let rules := SearchBooking.searchValidationRules SearchBooking.parseDateTimeLocal sampleNow in
  let validation :=
    Helpers.validateForm
      (SearchBooking.toObject (SearchBooking.searchData sameRouteNoCapacity)) rules in
  let result :=
    SearchBooking.handleSearch SearchBooking.parseDateTimeLocal sampleNow
      sampleISOString sameRouteNoCapacity in
  Schema.errors validation !! "fromPincode" = None
  ∧ Schema.errors validation !! "toPincode" = None
  ∧ SearchBooking.fromPincode (SearchBooking.searchData sameRouteNoCapacity)
    = SearchBooking.toPincode (SearchBooking.searchData sameRouteNoCapacity)
  ∧ SearchBooking.searchErrors result.1
    = {[ "capacityRequired" := "capacityRequired is required" ]}
  ∧ SearchBooking.searchErrors result.1 !! "toPincode" = None
  ∧ result.2 = [SearchBooking.ToastError "Please fix the errors in the search form"]
  ∧ SearchBooking.requests result.2 = [].
Proof.
  cbv zeta. split; [vm_compute; reflexivity|]. split; [vm_compute; reflexivity|].
  split; [reflexivity|]. split; [vm_compute; reflexivity|].
  split; [vm_compute; reflexivity|]. split; vm_compute; reflexivity.
Qed.

(** ** The ride duration *)

Section Rounding.

Import JsNum.

Lemma one_pos : 0 < one.
Proof. unfold one. apply Z.pow_pos_nonneg; lia. Qed.

Lemma roundHalfEven_exact (num den : Z) :
  0 < den → (den | num) → roundHalfEven num den = num / den.
Proof.
  intros Hden Hdiv. unfold roundHalfEven.
  apply Z.mod_divide in Hdiv; [|lia]. rewrite Hdiv.
  destruct (Z.compare_spec (2 * 0) den); [lia|reflexivity|lia].
Qed.

Lemma roundHalfEven_nonneg (num den : Z) :
  0 ≤ num → 0 < den → 0 ≤ roundHalfEven num den.
Proof.
  intros Hnum Hden. unfold roundHalfEven.
  assert (0 ≤ num / den) by (apply Z.div_pos; lia).
  destruct (2 * (num mod den) ?= den); [destruct (Z.even _)|..]; lia.
Qed.

(** Rounding keeps whole numbers whole. *)
Lemma roundUnits_whole (num : Z) :
  0 ≤ num → (one | num) → (one | roundUnits num 1) ∧ 0 ≤ roundUnits num 1.
Proof.
  intros Hnum Hdiv. unfold roundUnits.
  set (shift := Z.max (Z.log2 (num / 1) + 1 - 53) 0).
  assert (0 ≤ shift) as Hshift by (unfold shift; lia).
  clearbody shift.
  assert (0 < 2 ^ shift) as Hpow by (apply Z.pow_pos_nonneg; lia).
  rewrite Z.mul_1_l. split.
  - destruct (Z_le_gt_dec shift 1074) as [Hle|Hgt].
    + assert (2 ^ shift | num) as Hd.
      { etrans; [|exact Hdiv]. unfold one.
        exists (2 ^ (1074 - shift)). rewrite <- Z.pow_add_r by lia. f_equal. lia. }
      rewrite roundHalfEven_exact by done.
      destruct Hd as [k ->]. by rewrite Z.div_mul by lia.
    + apply Z.divide_mul_r. unfold one.
      exists (2 ^ (shift - 1074)). rewrite <- Z.pow_add_r by lia. f_equal. lia.
  - apply Z.mul_nonneg_nonneg; [|lia]. apply roundHalfEven_nonneg; lia.
Qed.

(** Whole numbers below [2^53] are not changed by rounding. *)
Lemma roundUnits_exact (k : Z) :
  0 ≤ k < 2 ^ 53 → roundUnits (k * one) 1 = k * one.
Proof.
  intros [Hk0 Hk]. unfold roundUnits.
  set (shift := Z.max (Z.log2 (k * one / 1) + 1 - 53) 0).
  assert (0 ≤ shift ≤ 1074) as Hshift.
  { unfold shift. rewrite Z.div_1_r.
    destruct (Z.eq_dec k 0) as [->|Hne];
      [rewrite Z.mul_0_l; change (Z.log2 0) with 0; lia|].
    unfold one. rewrite Z.log2_mul_pow2 by lia.
    assert (Z.log2 k < 53) by (apply Z.log2_lt_pow2; lia). lia. }
  clearbody shift.
  assert (0 < 2 ^ shift) as Hpow by (apply Z.pow_pos_nonneg; lia).
  rewrite Z.mul_1_l.
  assert (2 ^ shift | k * one) as [q Hq].
  { apply Z.divide_mul_r. unfold one.
    exists (2 ^ (1074 - shift)). rewrite <- Z.pow_add_r by lia. f_equal. lia. }
  rewrite roundHalfEven_exact by (done || by exists q).
  rewrite Hq. by rewrite Z.div_mul by lia.
Qed.

Lemma ofUnits_whole (negative : bool) (num : Z) :
  0 ≤ num → (one | num) → wholeOrInfinite (ofUnits negative num 1).
Proof.
  intros Hnum Hdiv. unfold ofUnits.
  destruct (roundUnits_whole num Hnum Hdiv) as [Hw _].
  destruct (overflow <=? roundUnits num 1); [exact I|].
  cbn. destruct negative; [by apply Z.divide_opp_r|done].
Qed.

Lemma ofZ_exact (k : Z) : 0 ≤ k < 2 ^ 53 → ofZ k = Fin (k * one).
Proof.
  intros Hk. unfold ofZ, ofRatio, ofUnits.
  rewrite Z.abs_eq by lia. rewrite roundUnits_exact by done.
  replace (k <? 0) with false by (symmetry; apply Z.ltb_ge; lia).
  replace (overflow <=? k * one) with false; [reflexivity|].
  symmetry. apply Z.leb_gt. unfold overflow, one.
  assert (k * 2 ^ 1074 < 2 ^ 53 * 2 ^ 1074).
  { apply Z.mul_lt_mono_pos_r; [apply Z.pow_pos_nonneg; lia | lia]. }
  replace (2 ^ 2098) with (2 ^ 53 * 2 ^ 1074 * 2 ^ 971).
  2:{ rewrite <- !Z.pow_add_r by lia. reflexivity. }
  assert (0 < 2 ^ 971) as Hc by (apply Z.pow_pos_nonneg; lia).
  assert (0 < 2 ^ 53 * 2 ^ 1074) as Hab
    by (apply Z.mul_pos_pos; apply Z.pow_pos_nonneg; lia).
  revert H Hc Hab. generalize (2 ^ 53 * 2 ^ 1074) (2 ^ 971) (k * 2 ^ 1074).
  intros a c x. nia.
Qed.

End Rounding.

Section RideDuration.

Import JsNum.

Lemma digitValue_nonneg (c : ascii) (d : Z) : JsString.digitValue c = Some d → 0 ≤ d.
Proof.
  unfold JsString.digitValue.
  repeat case_match; intros [= <-]; lia.
Qed.

Lemma readDigits_nonneg (radix : Z) (s : string) (count acc : Z) :
  0 ≤ radix → 0 ≤ acc → 0 ≤ (JsString.readDigits radix s count acc).1.2.
Proof.
  intros Hr. revert count acc. induction s as [|c s IH]; intros count acc Hacc; cbn.
  - done.
  - unfold JsString.radixDigit.
    destruct (JsString.digitValue c) as [d|] eqn:Hd; [|done].
    destruct (d <? radix); [|done].
    apply IH. apply digitValue_nonneg in Hd. nia.
Qed.

(** [parseInt] returns [NaN], an infinity or an integer. *)
Lemma parseInt_whole (s : string) :
  parseInt s = NaN ∨ wholeOrInfinite (parseInt s).
Proof.
  unfold parseInt.
  destruct (readSign (JsString.trimStart s)) as [negative s1].
  assert (∀ radix s2, 0 ≤ radix →
            (let '(count, v, _) := JsString.readDigits radix s2 0 0 in
             if count =? 0 then NaN else ofRatio negative v 1) = NaN
            ∨ wholeOrInfinite
                (let '(count, v, _) := JsString.readDigits radix s2 0 0 in
                 if count =? 0 then NaN else ofRatio negative v 1)) as Hdigits.
  { intros radix s2 Hr.
    pose proof (readDigits_nonneg radix s2 0 0 Hr (Z.le_refl 0)) as Hv.
    destruct (JsString.readDigits radix s2 0 0) as [[count v] rest]. cbn in Hv.
    destruct (count =? 0); [by left|]. right.
    unfold ofRatio. apply ofUnits_whole.
    - pose proof one_pos. nia.
    - apply Z.divide_factor_r. }
  assert (∃ radix s2,
            match s1 with
            | String "0" (String c r) =>
                if (JsString.code c =? 120) || (JsString.code c =? 88)
                then (16, r) else (10, s1)
            | _ => (10, s1)
            end = (radix, s2) ∧ 0 ≤ radix) as (radix & s2 & -> & Hr).
  { destruct s1 as [|c0 rest]; [by eexists _, _|].
    destruct c0 as [[] [] [] [] [] [] [] []], rest as [|c1 r];
      try (by eexists _, _).
    destruct ((JsString.code c1 =? 120) || (JsString.code c1 =? 88));
      by eexists _, _. }
  by apply Hdigits.
Qed.

(** The difference of two integers is an integer, an infinity or [NaN]. *)
Lemma sub_whole (a b : jsnum) :
  wholeOrInfinite a → wholeOrInfinite b →
  sub a b = NaN ∨ wholeOrInfinite (sub a b).
Proof.
  destruct a as [|na|a], b as [|nb|b]; cbn; try done.
  - intros _ _. destruct (Bool.eqb na (negb nb)); [by right|by left].
  - intros _ _. by right.
  - intros _ _. by right.
  - intros Ha Hb. right. apply ofUnits_whole; [lia|].
    apply Z.divide_abs_r. apply Z.divide_add_r; [done|by apply Z.divide_opp_r].
Qed.

(** The difference of two integers that stay below [2^53] is exact. *)
Lemma sub_exact (x y : Z) :
  Z.abs (x - y) < 2 ^ 53 →
  sub (Fin (x * one)) (Fin (y * one)) = Fin ((x - y) * one).
Proof.
  intros Hxy. unfold sub, neg, add, ofUnits.
  replace (x * one + - (y * one)) with ((x - y) * one) by lia.
  pose proof one_pos as Hone.
  rewrite Z.abs_mul, (Z.abs_eq one) by lia.
  rewrite roundUnits_exact by lia.
  pose proof (ofZ_exact (Z.abs (x - y)) ltac:(lia)) as Hof.
  unfold ofZ, ofRatio, ofUnits in Hof.
  rewrite Z.abs_idemp in Hof. rewrite roundUnits_exact in Hof by lia.
  destruct (overflow <=? Z.abs (x - y) * one); [by destruct (_ <? _) in Hof|].
  destruct ((x - y) * one <? 0) eqn:Hneg; f_equal.
  - apply Z.ltb_lt in Hneg. rewrite Z.abs_neq by nia. lia.
  - apply Z.ltb_ge in Hneg. rewrite Z.abs_eq by nia. lia.
Qed.

Lemma ofZ_24 : ofZ 24 = Fin (24 * one).
Proof. apply ofZ_exact. lia. Qed.

Lemma ofZ_1 : ofZ 1 = Fin (1 * one).
Proof. apply ofZ_exact. lia. Qed.

(** The duration computed from an integer difference. *)
Lemma duration_of_whole (k : Z) :
  max (rem (abs (Fin (k * one))) (ofZ 24)) (ofZ 1)
  = ofZ (Z.max (Z.abs k mod 24) 1).
Proof.
  pose proof one_pos as Hone.
  pose proof (Z.mod_pos_bound (Z.abs k) 24 ltac:(lia)) as Hmod.
  rewrite ofZ_24, ofZ_1, (ofZ_exact (Z.max _ _)) by lia.
  unfold abs, rem, max.
  replace (24 * one =? 0) with false by (symmetry; apply Z.eqb_neq; lia).
  rewrite Z.abs_mul, (Z.abs_eq one) by lia.
  rewrite Z.mul_rem_distr_r by lia.
  rewrite Z.rem_mod_nonneg by lia.
  unfold ltb.
  destruct (Z.abs k mod 24 * one <? 1 * one) eqn:Hlt; f_equal.
  - apply Z.ltb_lt in Hlt. rewrite Z.max_r by nia. reflexivity.
  - apply Z.ltb_ge in Hlt. rewrite Z.max_l by nia. reflexivity.
Qed.

Lemma trimStart_length (s : string) :
  JsString.length (JsString.trimStart s) ≤ JsString.length s.
Proof.
  unfold JsString.length. induction s as [|c s IH]; cbn [JsString.trimStart]; [done|].
  destruct (JsString.isWhiteSpace c); cbn [String.length]; lia.
Qed.

Lemma readSign_length (s : string) :
  JsString.length (readSign s).2 ≤ JsString.length s.
Proof.
  unfold JsString.length, readSign.
  destruct s as [|c r]; [done|].
  destruct c as [[] [] [] [] [] [] [] []]; cbn [snd String.length]; lia.
Qed.

(** The digits read stay below [radix ^ length]. *)
Lemma readDigits_bound (radix : Z) (s : string) (count acc : Z) :
  1 ≤ radix → 0 ≤ acc →
  (JsString.readDigits radix s count acc).1.2 + 1
    ≤ (acc + 1) * radix ^ JsString.length s.
Proof.
  intros Hr. unfold JsString.length.
  revert count acc. induction s as [|c s IH]; intros count acc Hacc.
  - cbn. lia.
  - cbn [JsString.readDigits String.length].
    rewrite Nat2Z.inj_succ, Z.pow_succ_r by lia.
    assert (1 ≤ radix ^ Z.of_nat (String.length s)) as Hpow
      by (pose proof (Z.pow_pos_nonneg radix (Z.of_nat (String.length s))); lia).
    unfold JsString.radixDigit.
    destruct (JsString.digitValue c) as [d|] eqn:Hd; [|cbn; nia].
    destruct (d <? radix) eqn:Hlt; [|cbn; nia].
    apply Z.ltb_lt in Hlt. apply digitValue_nonneg in Hd.
    etrans; [apply IH; nia|].
    assert (acc * radix + d + 1 ≤ (acc + 1) * radix) by nia.
    revert Hpow H. generalize (radix ^ Z.of_nat (String.length s)).
    intros p Hp H. nia.
Qed.

Lemma ofRatio_exact (negative : bool) (v : Z) :
  0 ≤ v < 2 ^ 53 →
  ofRatio negative v 1 = Fin ((if negative then - v else v) * one).
Proof.
  intros Hv. pose proof (ofZ_exact v Hv) as Hof.
  unfold ofZ, ofRatio, ofUnits in *.
  rewrite Z.abs_eq in Hof by lia.
  destruct (overflow <=? roundUnits (v * one) 1); [by destruct (v <? 0)|].
  rewrite roundUnits_exact by done. f_equal. destruct negative; lia.
Qed.

(** On an input of at most 15 characters [parseInt] is exact. *)
Lemma parseInt_short (s : string) :
  JsString.length s ≤ 15 →
  parseInt s = NaN ∨ ∃ x, Z.abs x < 2 ^ 52 ∧ parseInt s = Fin (x * one).
Proof.
  intros Hlen. unfold parseInt.
  pose proof (trimStart_length s) as Htrim.
  pose proof (readSign_length (JsString.trimStart s)) as Hsign.
  destruct (readSign (JsString.trimStart s)) as [negative s1]. cbn [snd] in Hsign.
  assert (∃ radix s2,
            match s1 with
            | String "0" (String c r) =>
                if (JsString.code c =? 120) || (JsString.code c =? 88)
                then (16, r) else (10, s1)
            | _ => (10, s1)
            end = (radix, s2)
            ∧ 1 ≤ radix ∧ radix ^ JsString.length s2 ≤ 2 ^ 52)
    as (radix & s2 & -> & Hr & Hpow).
  { assert (10 ^ JsString.length s1 ≤ 2 ^ 52) as Hten.
    { etrans; [apply (Z.pow_le_mono_r 10 _ 15); [lia|lia]|]. by vm_compute. }
    destruct s1 as [|c0 rest]; [by eexists _, _|].
    destruct c0 as [[] [] [] [] [] [] [] []], rest as [|c1 r];
      try (by eexists _, _).
    destruct ((JsString.code c1 =? 120) || (JsString.code c1 =? 88));
      [|by eexists _, _].
    eexists _, _. split; [done|]. split; [lia|].
    unfold JsString.length in *. cbn [String.length] in Hsign.
    etrans; [apply (Z.pow_le_mono_r 16 _ 13); lia|]. by vm_compute. }
  pose proof (readDigits_bound radix s2 0 0 Hr (Z.le_refl 0)) as Hbound.
  pose proof (readDigits_nonneg radix s2 0 0 ltac:(lia) (Z.le_refl 0)) as Hnonneg.
  destruct (JsString.readDigits radix s2 0 0) as [[count v] rest].
  cbn [fst snd] in Hbound, Hnonneg.
  destruct (count =? 0); [by left|]. right.
  assert (v < 2 ^ 52) as Hv by lia.
  exists (if negative then - v else v). split; [destruct negative; lia|].
  apply ofRatio_exact. change (2 ^ 53) with (2 * 2 ^ 52). lia.
Qed.

(** On arbitrary strings: [calculateRideDuration] returns 2 when either
    input fails to parse.  When both parse and their difference, as
    computed on numbers, is finite, that difference is an integer [k] and
    the result is the integer [max(|k| mod 24, 1)], between 1 and 23; [k]
    is the exact difference of the two parsed integers when that is below
    [2^53] in magnitude, as it is for all inputs of at most 15 characters.
    When the difference is not finite (a parsed value beyond the range of
    the numbers) the result is [NaN]. *)
Theorem calculateRideDuration_result (fromPincode toPincode : string) :
  (isNaN (parseInt fromPincode) || isNaN (parseInt toPincode) = true →
   Helpers.calculateRideDuration fromPincode toPincode = ofZ 2)
  ∧ (isNaN (parseInt fromPincode) || isNaN (parseInt toPincode) = false →
     (∀ d, sub (parseInt fromPincode) (parseInt toPincode) = Fin d →
        ∃ k, d = k * one
             ∧ Helpers.calculateRideDuration fromPincode toPincode
               = ofZ (Z.max (Z.abs k mod 24) 1)
             ∧ 1 ≤ Z.max (Z.abs k mod 24) 1 ≤ 23)
     ∧ ((∀ d, sub (parseInt fromPincode) (parseInt toPincode) ≠ Fin d) →
        Helpers.calculateRideDuration fromPincode toPincode = NaN)
     ∧ (∀ x y, parseInt fromPincode = Fin (x * one) →
               parseInt toPincode = Fin (y * one) →
               Z.abs (x - y) < 2 ^ 53 →
               Helpers.calculateRideDuration fromPincode toPincode
               = ofZ (Z.max (Z.abs (x - y) mod 24) 1))
     ∧ (JsString.length fromPincode ≤ 15 → JsString.length toPincode ≤ 15 →
        ∃ x y, parseInt fromPincode = Fin (x * one)
               ∧ parseInt toPincode = Fin (y * one)
               ∧ Helpers.calculateRideDuration fromPincode toPincode
                 = ofZ (Z.max (Z.abs (x - y) mod 24) 1)
               ∧ 1 ≤ Z.max (Z.abs (x - y) mod 24) 1 ≤ 23)).
Proof.
  unfold Helpers.calculateRideDuration.
  split; [by intros ->|]. intros Hparsed. rewrite Hparsed.
  apply orb_false_iff in Hparsed as [Hfrom Hto].
  destruct (parseInt_whole fromPincode) as [H|Hwf]; [by rewrite H in Hfrom|].
  destruct (parseInt_whole toPincode) as [H|Hwt]; [by rewrite H in Hto|].
  split; [|split; [|split]].
  - intros d Hd.
    destruct (sub_whole _ _ Hwf Hwt) as [H|Hw]; [congruence|].
    rewrite Hd in Hw. destruct Hw as [k ->]. exists k.
    rewrite Hd, duration_of_whole.
    pose proof (Z.mod_pos_bound (Z.abs k) 24 ltac:(lia)). repeat split; lia.
  - intros Hnot.
    destruct (sub (parseInt fromPincode) (parseInt toPincode)) as [|neg|d];
      [reflexivity | reflexivity | by destruct (Hnot d)].
  - intros x y -> -> Hxy.
    rewrite sub_exact by done. apply duration_of_whole.
  - intros Hlf Hlt.
    destruct (parseInt_short fromPincode Hlf) as [H|(x & Hx & Hfx)];
      [by rewrite H in Hfrom|].
    destruct (parseInt_short toPincode Hlt) as [H|(y & Hy & Hty)];
      [by rewrite H in Hto|].
    exists x, y. rewrite Hfx, Hty.
    assert (Z.abs (x - y) < 2 ^ 53) as Hxy
      by (change (2 ^ 53) with (2 * 2 ^ 52); lia).
    rewrite sub_exact by done. rewrite duration_of_whole.
    pose proof (Z.mod_pos_bound (Z.abs (x - y)) 24 ltac:(lia)).
    repeat split; lia.
Qed.

(** C10. For every pair of pincode inputs, that is of strings of at most
    15 characters, which covers whatever the two pincode inputs of the
    search form (at most 6 characters) hold, [calculateRideDuration]
    returns an integer between 1 and 23: it is 2 when either input fails to
    parse, and [max(|x - y| mod 24, 1)] for the integers [x] and [y] that
    the two inputs parse to otherwise. *)
Theorem calculateRideDuration_of_pincodes (fromPincode toPincode : string) :
  JsString.length fromPincode ≤ 15 →
  JsString.length toPincode ≤ 15 →
  (∃ k, 1 ≤ k ≤ 23 ∧ Helpers.calculateRideDuration fromPincode toPincode = ofZ k)
  ∧ (isNaN (parseInt fromPincode) || isNaN (parseInt toPincode) = true →
     Helpers.calculateRideDuration fromPincode toPincode = ofZ 2)
  ∧ (isNaN (parseInt fromPincode) || isNaN (parseInt toPincode) = false →
     ∃ x y, parseInt fromPincode = Fin (x * one)
            ∧ parseInt toPincode = Fin (y * one)
            ∧ Helpers.calculateRideDuration fromPincode toPincode
              = ofZ (Z.max (Z.abs (x - y) mod 24) 1)).
Proof.
  intros Hlf Hlt.
  destruct (calculateRideDuration_result fromPincode toPincode) as [Hnan Hok].
  destruct (isNaN (parseInt fromPincode) || isNaN (parseInt toPincode)).
  - rewrite (Hnan eq_refl). split; [exists 2; split; [lia|reflexivity]|].
    split; [reflexivity | discriminate].
  - destruct (Hok eq_refl) as (_ & _ & _ & Hshort).
    destruct (Hshort Hlf Hlt) as (x & y & Hx & Hy & Hres & Hrange).
    split; [exists (Z.max (Z.abs (x - y) mod 24) 1); split; [exact Hrange|exact Hres]|].
    split; [discriminate|]. intros _. exists x, y.
    split; [exact Hx|]. split; [exact Hy | exact Hres].
Qed.

End RideDuration.

(** The witness of C10: two pincodes of the form. *)
Lemma calculateRideDuration_of_pincodes_witness :
  JsString.length "110001" ≤ 15
  ∧ JsString.length "400001" ≤ 15
  ∧ ∃ k, 1 ≤ k ≤ 23 ∧ Helpers.calculateRideDuration "110001" "400001" = JsNum.ofZ k.
Proof.
  assert (JsString.length "110001" ≤ 15) as Hfrom by (vm_compute; discriminate).
  assert (JsString.length "400001" ≤ 15) as Hto by (vm_compute; discriminate).
  split; [exact Hfrom|]. split; [exact Hto|].
  exact (proj1 (calculateRideDuration_of_pincodes "110001" "400001" Hfrom Hto)).
Defined.

(** Beyond what the form can hold: a string of 310 digits parses, to
    [Infinity]; the duration computed from it is [NaN], not an integer
    between 1 and 23. *)
Lemma calculateRideDuration_overflow :
  JsNum.parseInt hugePincode = Inf false
  ∧ JsNum.isNaN (JsNum.parseInt hugePincode) || JsNum.isNaN (JsNum.parseInt "0") = false
  ∧ Helpers.calculateRideDuration hugePincode "0" = NaN
  ∧ (∀ k, 1 ≤ k ≤ 23 → Helpers.calculateRideDuration hugePincode "0" ≠ JsNum.ofZ k).
Proof.
  assert (Helpers.calculateRideDuration hugePincode "0" = NaN) as H
    by (vm_compute; reflexivity).
  split; [vm_compute; reflexivity|]. split; [vm_compute; reflexivity|].
  split; [exact H|]. intros k Hk. rewrite H, ofZ_exact by lia. discriminate.
Qed.

(** Two pincodes of the form: the arithmetic is exact. *)
Lemma calculateRideDuration_pincodes :
  Helpers.calculateRideDuration "110001" "400001" = JsNum.ofZ 8
  ∧ Helpers.calculateRideDuration "110001" "110001" = JsNum.ofZ 1
  ∧ Helpers.calculateRideDuration "110001" "x10001" = JsNum.ofZ 2
  ∧ Helpers.calculateRideDuration "pin" "110001" = JsNum.ofZ 2.
Proof. split; [|split; [|split]]; vm_compute; reflexivity. Qed.

(** * Further properties of the sources *)

(** ** [calculateRideDuration], [isValidPincode], [getVehicleType] *)

Section HelpersFacts.

Import JsNum.

Lemma roundUnits_nonneg (num : Z) : 0 ≤ num → 0 ≤ roundUnits num 1.
Proof.
  intros Hnum. unfold roundUnits.
  set (shift := Z.max (Z.log2 (num / 1) + 1 - 53) 0).
  assert (0 ≤ shift) as Hshift by (unfold shift; lia). clearbody shift.
  assert (0 < 2 ^ shift) by (apply Z.pow_pos_nonneg; lia).
  apply Z.mul_nonneg_nonneg; [|lia]. apply roundHalfEven_nonneg; lia.
Qed.

Lemma abs_ofUnits (negative : bool) (num : Z) :
  0 ≤ num → abs (ofUnits negative num 1) = ofUnits false num 1.
Proof.
  intros Hnum. unfold ofUnits. pose proof (roundUnits_nonneg num Hnum).
  destruct (overflow <=? roundUnits num 1); [reflexivity|].
  cbn. f_equal. destruct negative; lia.
Qed.

Lemma abs_sub_comm (x y : jsnum) : abs (sub x y) = abs (sub y x).
Proof.
  destruct x as [|a|a], y as [|b|b]; try reflexivity.
  - unfold sub, neg, add. by destruct a, b.
  - unfold sub, neg, add. rewrite !abs_ofUnits by lia.
    f_equal. lia.
Qed.

(** X1. The ride duration does not depend on the direction of the ride:
    swapping the two pincodes gives the same result, whatever the inputs. *)
Theorem calculateRideDuration_symmetric (a b : string) :
  Helpers.calculateRideDuration a b = Helpers.calculateRideDuration b a.
Proof.
  unfold Helpers.calculateRideDuration.
  rewrite (orb_comm (isNaN (parseInt a))), (abs_sub_comm (parseInt a)). reflexivity.
Qed.

End HelpersFacts.

Section Pincodes.

Import JsNum.

Lemma digit_code (c : ascii) :
  JsString.isDigit c = true → 48 ≤ JsString.code c ≤ 57.
Proof. unfold JsString.isDigit. intros H. apply andb_true_iff in H. lia. Qed.

Lemma digit_not_whitespace (c : ascii) :
  JsString.isDigit c = true → JsString.isWhiteSpace c = false.
Proof.
  intros H. apply digit_code in H. unfold JsString.isWhiteSpace.
  repeat (apply orb_false_iff; split); try apply andb_false_iff; lia.
Qed.

Lemma allDigits_agree (s : string) : SearchBooking.allDigits s = Helpers.allDigits s.
Proof. induction s as [|c s IH]; [done|]. cbn. by rewrite IH. Qed.

Lemma allDigits_trimEnd (s : string) :
  Helpers.allDigits s = true → JsString.trimEnd s = s.
Proof.
  induction s as [|c s IH]; [done|]. cbn [Helpers.allDigits JsString.trimEnd].
  intros [Hc Hs]%andb_true_iff. rewrite IH by done.
  destruct s; [|done]. by rewrite digit_not_whitespace.
Qed.

Lemma allDigits_trim (s : string) :
  Helpers.allDigits s = true → JsString.trim s = s.
Proof.
  intros H. unfold JsString.trim.
  destruct s as [|c s]; [done|]. cbn [JsString.trimStart].
  pose proof H as [Hc _]%andb_true_iff. rewrite digit_not_whitespace by done.
  by apply allDigits_trimEnd.
Qed.

(** X2. The pattern of the search form accepts exactly the strings that
    [isValidPincode] accepts and that carry no white space around them: the
    helper trims before it tests, the form does not. *)
Theorem form_pattern_is_untrimmed_isValidPincode (s : string) :
  SearchBooking.sixDigits s = true
  ↔ Helpers.isValidPincode (VStr s) = true ∧ JsString.trim s = s.
Proof.
  unfold SearchBooking.sixDigits, Helpers.isValidPincode, Helpers.pincodeRegex.
  rewrite allDigits_agree. split.
  - intros [Hlen Hd]%andb_true_iff.
    rewrite (allDigits_trim s Hd), Hlen, Hd.
    destruct s; [done|]. done.
  - intros [H Ht]. rewrite Ht in H. by destruct s.
Qed.


Lemma readDigits_allDigits (s : string) (count acc : Z) :
  Helpers.allDigits s = true →
  ∃ v, JsString.readDigits 10 s count acc = (count + JsString.length s, v, EmptyString).
Proof.
  unfold JsString.length.
  revert count acc. induction s as [|c s IH]; intros count acc.
  - intros _. exists acc. cbn. f_equal. f_equal. lia.
  - cbn [Helpers.allDigits JsString.readDigits String.length].
    intros [Hc Hs]%andb_true_iff.
    pose proof (digit_code c Hc) as Hcode.
    assert (JsString.radixDigit 10 c = Some (JsString.code c - 48)) as ->.
    { unfold JsString.radixDigit, JsString.digitValue.
      replace ((48 <=? JsString.code c) && (JsString.code c <=? 57)) with true
        by (symmetry; apply andb_true_iff; lia).
      replace (JsString.code c - 48 <? 10) with true by (symmetry; apply Z.ltb_lt; lia).
      reflexivity. }
    destruct (IH (count + 1) (acc * 10 + (JsString.code c - 48)) Hs) as [v Hv].
    exists v. rewrite Hv. f_equal. f_equal. lia.
Qed.

Lemma readSign_digit (c : ascii) (r : string) :
  JsString.isDigit c = true → readSign (String c r) = (false, String c r).
Proof.
  intros H. destruct c as [[] [] [] [] [] [] [] []]; try reflexivity; discriminate H.
Qed.

Lemma digit_not_radix_letter (c : ascii) :
  JsString.isDigit c = true →
  (JsString.code c =? 120) || (JsString.code c =? 88) = false.
Proof. intros H%digit_code. apply orb_false_iff. lia. Qed.

(** On a non-empty string of digits [parseInt] and [Number] read the same
    integer. *)
Lemma parseInt_of_digits (s : string) :
  Helpers.allDigits s = true → s ≠ EmptyString →
  ∃ v, 0 ≤ v ∧ v + 1 ≤ 10 ^ JsString.length s
       ∧ parseInt s = ofZ v ∧ ofString s = ofZ v.
Proof.
  intros Hd Hne.
  destruct (readDigits_allDigits s 0 0 Hd) as [v Hv].
  pose proof (readDigits_nonneg 10 s 0 0 ltac:(lia) (Z.le_refl 0)) as Hv0.
  pose proof (readDigits_bound 10 s 0 0 ltac:(lia) (Z.le_refl 0)) as Hvb.
  rewrite Hv in Hv0, Hvb. cbn [fst snd] in Hv0, Hvb.
  assert (0 < JsString.length s) as Hlen.
  { unfold JsString.length. destruct s; [done|]. cbn [String.length]. lia. }
  assert (ofRatio false v 1 = ofZ v) as Hof.
  { unfold ofZ. rewrite Z.abs_eq by lia.
    by replace (v <? 0) with false by (symmetry; apply Z.ltb_ge; lia). }
  exists v. split; [done|]. split; [lia|].
  destruct s as [|c0 r]; [done|].
  pose proof Hd as [Hc0 Hr]%andb_true_iff.
  split.
  - unfold parseInt. cbn [JsString.trimStart].
    rewrite digit_not_whitespace, readSign_digit by done.
    assert (match String c0 r with
            | String "0" (String c r0) =>
                if (JsString.code c =? 120) || (JsString.code c =? 88)
                then (16, r0) else (10, String c0 r)
            | _ => (10, String c0 r)
            end = (10, String c0 r)) as ->.
    { destruct r as [|c1 r'].
      - destruct c0 as [[] [] [] [] [] [] [] []]; reflexivity.
      - pose proof Hr as [Hc1 _]%andb_true_iff.
        pose proof (digit_not_radix_letter c1 Hc1) as Hx.
        destruct c0 as [[] [] [] [] [] [] [] []]; try reflexivity.
        by rewrite Hx. }
    rewrite Hv.
    replace (0 + JsString.length (String c0 r) =? 0) with false
      by (symmetry; apply Z.eqb_neq; lia).
    exact Hof.
  - unfold ofString. rewrite (allDigits_trim _ Hd). cbn [JsString.isEmpty].
    assert (nonDecimal (String c0 r) = None) as ->.
    { unfold nonDecimal. destruct r as [|c1 r'].
      - destruct c0 as [[] [] [] [] [] [] [] []]; reflexivity.
      - pose proof Hr as [Hc1%digit_code _]%andb_true_iff.
        assert (match JsString.code c1 with
                | 120 | 88 => Some 16
                | 111 | 79 => Some 8
                | 98 | 66 => Some 2
                | _ => None
                end = None) as Hradix.
        { destruct (JsString.code c1) as [|p|p]; try reflexivity.
          do 8 (try destruct p as [p|p|]; try reflexivity; try lia). }
        destruct c0 as [[] [] [] [] [] [] [] []]; try reflexivity.
        by rewrite Hradix. }
    rewrite readSign_digit by done.
    unfold unsignedDecimal.
    assert (JsString.eqb (String c0 r) "Infinity" = false) as ->.
    { unfold JsString.eqb. apply bool_decide_eq_false. intros [= -> _].
      discriminate Hc0. }
    rewrite Hv. cbn [JsString.readDigits].
    replace (0 + JsString.length (String c0 r) + 0 =? 0) with false
      by (symmetry; apply Z.eqb_neq; lia).
    cbn [readExponent]. rewrite Z.sub_0_l.
    replace (Z.max (- 0) 0) with 0 by lia.
    replace (Z.max (- - 0) 0) with 0 by lia.
    change (10 ^ 0) with 1. rewrite Z.mul_1_r. exact Hof.
Qed.

(** X3. For two pincodes that pass the pattern of the search form, both
    parse (to integers up to 999999) and the ride duration is the integer
    [max(|x - y| mod 24, 1)], between 1 and 23: never [NaN]. *)
Theorem duration_of_validated_pincodes (a b : string) :
  SearchBooking.sixDigits a = true →
  SearchBooking.sixDigits b = true →
  ∃ x y, 0 ≤ x ≤ 999999 ∧ 0 ≤ y ≤ 999999
         ∧ parseInt a = ofZ x ∧ parseInt b = ofZ y
         ∧ Helpers.calculateRideDuration a b = ofZ (Z.max (Z.abs (x - y) mod 24) 1)
         ∧ 1 ≤ Z.max (Z.abs (x - y) mod 24) 1 ≤ 23.
Proof.
  unfold SearchBooking.sixDigits. rewrite !allDigits_agree.
  intros [Hla%Z.eqb_eq Hda]%andb_true_iff [Hlb%Z.eqb_eq Hdb]%andb_true_iff.
  destruct (parseInt_of_digits a Hda) as (x & Hx0 & Hxb & Hpa & _).
  { intros ->. discriminate Hla. }
  destruct (parseInt_of_digits b Hdb) as (y & Hy0 & Hyb & Hpb & _).
  { intros ->. discriminate Hlb. }
  rewrite Hla in Hxb. rewrite Hlb in Hyb. change (10 ^ 6) with 1000000 in *.
  exists x, y. split; [lia|]. split; [lia|]. split; [done|]. split; [done|].
  pose proof (Z.mod_pos_bound (Z.abs (x - y)) 24 ltac:(lia)). split; [|lia].
  unfold Helpers.calculateRideDuration. rewrite Hpa, Hpb.
  assert (2 ^ 20 < 2 ^ 53) as Hpow by (apply Z.pow_lt_mono_r; lia).
  change (2 ^ 20) with 1048576 in Hpow.
  rewrite (ofZ_exact x), (ofZ_exact y) by lia. cbn [isNaN orb].
  rewrite sub_exact by lia. apply duration_of_whole.
Qed.

End Pincodes.

(** The witness of X3: two pincodes of the form. *)
Lemma duration_of_validated_pincodes_witness :
  SearchBooking.sixDigits "110001" = true
  ∧ SearchBooking.sixDigits "400001" = true
  ∧ ∃ x y, 0 ≤ x ≤ 999999 ∧ 0 ≤ y ≤ 999999
           ∧ JsNum.parseInt "110001" = JsNum.ofZ x ∧ JsNum.parseInt "400001" = JsNum.ofZ y
           ∧ Helpers.calculateRideDuration "110001" "400001"
             = JsNum.ofZ (Z.max (Z.abs (x - y) mod 24) 1)
           ∧ 1 ≤ Z.max (Z.abs (x - y) mod 24) 1 ≤ 23.
Proof.
  split; [reflexivity|]. split; [reflexivity|].
  apply (duration_of_validated_pincodes "110001" "400001"); reflexivity.
Defined.

Section VehicleType.

Import JsNum.

Lemma leb_trans (x y z : jsnum) : leb x y = true → leb y z = true → leb x z = true.
Proof.
  destruct x as [|[]|a], y as [|[]|b], z as [|[]|c]; cbn; intros H1 H2; try done.
  apply Z.leb_le in H1, H2. apply Z.leb_le. lia.
Qed.

Lemma leb_not_NaN (x y : jsnum) : leb x y = true → isNaN x = false ∧ isNaN y = false.
Proof. by destruct x, y. Qed.

(** X4. The vehicle type is monotone in the capacity: of two capacities
    that are neither falsy nor [NaN], the larger one never gets the smaller
    type (Small, Medium, Large, Heavy Duty in this order), and neither is
    Unknown. *)
Theorem getVehicleType_monotone (u v : jsval) :
  truthy u = true → truthy v = true →
  leb (Number u) (Number v) = true →
  (1 ≤ typeRank (Helpers.getVehicleType u)
   ∧ typeRank (Helpers.getVehicleType u) ≤ typeRank (Helpers.getVehicleType v))%nat.
Proof.
  intros Hu Hv Hle. unfold Helpers.getVehicleType. rewrite Hu, Hv.
  destruct (leb_not_NaN _ _ Hle) as [-> ->]. cbn [negb orb].
  pose proof (leb_trans (Number u) (Number v) (ofZ 1000) Hle) as H1.
  pose proof (leb_trans (Number u) (Number v) (ofZ 5000) Hle) as H2.
  pose proof (leb_trans (Number u) (Number v) (ofZ 15000) Hle) as H3.
  revert H1 H2 H3. generalize (ofZ 1000) (ofZ 5000) (ofZ 15000).
  intros c1 c2 c3 H1 H2 H3.
  destruct (leb (Number v) c1) eqn:Hv1; [rewrite (H1 eq_refl); by vm_compute|].
  destruct (leb (Number v) c2) eqn:Hv2.
  { rewrite (H2 eq_refl). destruct (leb (Number u) c1); vm_compute; lia. }
  destruct (leb (Number v) c3) eqn:Hv3.
  { rewrite (H3 eq_refl).
    destruct (leb (Number u) c1), (leb (Number u) c2); vm_compute; lia. }
  destruct (leb (Number u) c1), (leb (Number u) c2), (leb (Number u) c3);
    vm_compute; lia.
Qed.

End VehicleType.

(** The witness of X4: 800 kg against 6000 kg. *)
Lemma getVehicleType_monotone_witness :
  truthy (VNum (JsNum.ofZ 800)) = true
  ∧ truthy (VNum (JsNum.ofZ 6000)) = true
  ∧ JsNum.leb (Number (VNum (JsNum.ofZ 800))) (Number (VNum (JsNum.ofZ 6000))) = true
  ∧ (1 ≤ typeRank (Helpers.getVehicleType (VNum (JsNum.ofZ 800)))
     ∧ typeRank (Helpers.getVehicleType (VNum (JsNum.ofZ 800)))
       ≤ typeRank (Helpers.getVehicleType (VNum (JsNum.ofZ 6000))))%nat.
Proof.
  split; [vm_compute; reflexivity|]. split; [vm_compute; reflexivity|].
  split; [vm_compute; reflexivity|].
  apply (getVehicleType_monotone (VNum (JsNum.ofZ 800)) (VNum (JsNum.ofZ 6000)));
    vm_compute; reflexivity.
Defined.

(** ** [debounce] and [throttle] *)

Section DebounceFacts.

Import Helpers.Debounce.

Context {A : Type} (delay : Z).

Lemma elapse_before_due (w : @World A) (id : nat) (a : A) (g : Z) :
  timers w = [(id, clock w + delay, a)] → g < delay →
  elapse g w
  = {| clock := clock w + g; timers := [(id, clock w + delay, a)];
       nextId := nextId w; timeoutId := timeoutId w; invoked := invoked w |}.
Proof.
  intros Ht Hg. unfold elapse. rewrite Ht, !filter_cons, !filter_nil. cbn [fst snd].
  rewrite (decide_True (P := ¬ clock w + delay ≤ clock w + g)) by lia.
  rewrite (decide_False (P := clock w + delay ≤ clock w + g)) by lia.
  cbn. by rewrite app_nil_r.
Qed.

Lemma elapse_when_due (w : @World A) (id : nat) (a : A) (dt : Z) :
  timers w = [(id, clock w + delay, a)] → delay ≤ dt →
  elapse dt w
  = {| clock := clock w + dt; timers := [];
       nextId := nextId w; timeoutId := timeoutId w;
       invoked := invoked w ++ [(clock w + delay, a)] |}.
Proof.
  intros Ht Hg. unfold elapse. rewrite Ht, !filter_cons, !filter_nil. cbn [fst snd].
  rewrite (decide_False (P := ¬ clock w + delay ≤ clock w + dt)) by lia.
  rewrite (decide_True (P := clock w + delay ≤ clock w + dt)) by lia.
  reflexivity.
Qed.

Lemma elapse_no_timers (w : @World A) (dt : Z) :
  timers w = [] →
  elapse dt w
  = {| clock := clock w + dt; timers := [];
       nextId := nextId w; timeoutId := timeoutId w; invoked := invoked w |}.
Proof. intros Ht. unfold elapse. rewrite Ht. cbn. by rewrite app_nil_r. Qed.

(** After each call of a burst exactly one timer is pending: the one of
    that call. *)
Lemma burst_pending (calls : list (Z * A)) (w : @World A) :
  0 < delay →
  Forall (λ c, 0 ≤ c.1 < delay) calls →
  calls ≠ [] →
  invoked w = [] →
  (timers w = []
   ∨ ∃ id a, timers w = [(id, clock w + delay, a)] ∧ timeoutId w = Some id) →
  invoked (burst delay calls w) = []
  ∧ ∃ id g a, last calls = Some (g, a)
              ∧ timers (burst delay calls w)
                = [(id, clock (burst delay calls w) + delay, a)]
              ∧ timeoutId (burst delay calls w) = Some id.
Proof.
  intros Hdelay Hgaps. revert w.
  induction Hgaps as [|[g a] rest Hg Hrest IH]; intros w Hne Hinv Hpending; [done|].
  cbn [fst] in Hg. unfold burst. cbn [foldl fst snd].
  set (w1 := call delay a (elapse g w)).
  assert (invoked w1 = []
          ∧ timers w1 = [(nextId w, clock w1 + delay, a)]
          ∧ timeoutId w1 = Some (nextId w)) as (Hinv1 & Htimers1 & Hid1).
  { unfold w1. destruct Hpending as [Ht|(id & a' & Ht & Hid)].
    - rewrite (elapse_no_timers _ _ Ht). unfold call. cbn.
      rewrite Z.max_l by lia. split; [done|]. split; [|done].
      by destruct (timeoutId w).
    - rewrite (elapse_before_due _ _ _ _ Ht) by lia. unfold call. cbn.
      rewrite Hid. cbn.
      rewrite (decide_False (P := id ≠ id)) by (intros H; by apply H).
      rewrite Z.max_l by lia. done. }
  destruct rest as [|c rest'].
  - cbn [foldl]. split; [done|]. by exists (nextId w), g, a.
  - destruct (IH w1) as (Hinv' & id & g' & a' & Hlast & Ht' & Hid'); [done|done|eauto|].
    fold (burst delay (c :: rest') w1). split; [done|].
    exists id, g', a'. by rewrite last_cons, Hlast.
Qed.

(** X5. A burst of calls of a debounced function, each made less than
    [delay] ms after the one before, does not call [func] while it lasts;
    once [delay] ms have passed after the last call, [func] has been
    called exactly once, with the arguments of the last call, [delay] ms
    after it, and no timer is left. *)
Theorem debounce_runs_last_call_once (calls : list (Z * A)) (g : Z) (a : A) (dt : Z) :
  0 < delay →
  Forall (λ c, 0 ≤ c.1 < delay) calls →
  last calls = Some (g, a) →
  invoked (burst delay calls fresh) = []
  ∧ (dt < delay → invoked (elapse dt (burst delay calls fresh)) = [])
  ∧ (delay ≤ dt →
     invoked (elapse dt (burst delay calls fresh))
       = [(clock (burst delay calls fresh) + delay, a)]
     ∧ timers (elapse dt (burst delay calls fresh)) = []).
Proof.
  intros Hdelay Hgaps Hlast.
  destruct (burst_pending calls fresh Hdelay Hgaps) as (Hinv & id & g' & a' & Hl & Ht & Hid).
  { intros ->. discriminate Hlast. }
  { reflexivity. }
  { by left. }
  rewrite Hlast in Hl. injection Hl as <- <-.
  split; [done|]. split.
  - intros Hdt. rewrite (elapse_before_due _ _ _ _ Ht) by done. done.
  - intros Hdt. rewrite (elapse_when_due _ _ _ _ Ht) by done. cbn.
    by rewrite Hinv.
Qed.

End DebounceFacts.

(** The witness of X5: three calls 100 ms apart with a delay of 300 ms. *)
Lemma debounce_runs_last_call_once_witness :
  0 < 300
  ∧ Forall (λ c : Z * string, 0 ≤ c.1 < 300) [(0, "a"); (100, "ab"); (100, "abc")]
  ∧ last [(0, "a"); (100, "ab"); (100, "abc")] = Some (100, "abc")
  ∧ Helpers.Debounce.invoked
      (Helpers.Debounce.elapse 300
         (Helpers.Debounce.burst 300 [(0, "a"); (100, "ab"); (100, "abc")]
            Helpers.Debounce.fresh))
    = [(500, "abc")].
Proof.
  assert (Forall (λ c : Z * string, 0 ≤ c.1 < 300) [(0, "a"); (100, "ab"); (100, "abc")])
    as Hgaps by (repeat constructor; cbn; lia).
  split; [lia|]. split; [exact Hgaps|]. split; [reflexivity|].
  destruct (debounce_runs_last_call_once 300 [(0, "a"); (100, "ab"); (100, "abc")]
              100 "abc" 300 ltac:(lia) Hgaps eq_refl) as (_ & _ & H).
  destruct (H ltac:(lia)) as [H' _]. exact H'.
Defined.

Section ThrottleFacts.

Import Helpers.Throttle.

Context {A : Type} (limit : Z).






(** A call made while [inThrottle] is set is dropped. *)
Lemma throttled_call_is_dropped (args : A) (w : @World A) :
  inThrottle w = true → call limit args w = w.
Proof. intros H. unfold call. by rewrite H. Qed.

End ThrottleFacts.


(** ** The interceptor and [getErrorMessage] *)

Section ApiFacts.

Lemma orElse_nonempty (o : option string) (fallback : string) :
  JsString.isEmpty fallback = false →
  JsString.isEmpty (Schema.orElse o fallback) = false.
Proof.
  intros H. unfold Schema.orElse.
  destruct o as [m|]; [|done]. by destruct (JsString.isEmpty m) eqn:Hm.
Qed.

(** X8. The interceptor never leaves an error without a message, and
    [getErrorMessage] never returns the empty string, whatever the error
    holds. *)
Theorem error_messages_are_never_empty (e : Api.AxiosError) :
  JsString.isEmpty (Api.errMessage (Api.responseError e)) = false
  ∧ JsString.isEmpty (Api.getErrorMessage e) = false.
Proof.
  split.
  - destruct e as [[r|] req msg]; unfold Api.responseError; cbn [Api.response Api.request].
    + destruct (Api.status r) as [|p|p];
        try (cbn; by apply orElse_nonempty).
      do 10 (try destruct p as [p|p|];
             try (cbn; (reflexivity || by apply orElse_nonempty))).
    + by destruct req.
  - unfold Api.getErrorMessage.
    destruct (Api.responseMessage e) as [m|];
      [destruct (JsString.isEmpty m) eqn:Hm; [|done]|]; by apply orElse_nonempty.
Qed.

(** X9. The interceptor only writes the message: the response and the
    request of the error are kept, the message it writes does not depend
    on the message the error had, and running it twice changes nothing
    more. *)
Theorem interceptor_is_idempotent (e : Api.AxiosError) (msg : string) :
  Api.response (Api.responseError e) = Api.response e
  ∧ Api.request (Api.responseError e) = Api.request e
  ∧ Api.responseError (Api.setMessage msg e) = Api.responseError e
  ∧ Api.responseError (Api.responseError e) = Api.responseError e.
Proof.
  assert (∀ e', Api.response (Api.responseError e') = Api.response e'
                ∧ Api.request (Api.responseError e') = Api.request e') as Hkeep.
  { intros [[r|] req m]; unfold Api.responseError; cbn [Api.response Api.request].
    - destruct (Api.status r) as [|p|p]; try (by split).
      do 10 (try destruct p as [p|p|]; try (by split)).
    - by destruct req. }
  assert (∀ e1 e2, Api.response e1 = Api.response e2 → Api.request e1 = Api.request e2 →
                   Api.responseError e1 = Api.responseError e2) as Hsame.
  { intros [resp1 req1 m1] [resp2 req2 m2]. cbn [Api.response Api.request].
    intros <- <-. unfold Api.responseError. cbn [Api.response Api.request].
    destruct resp1 as [r|]; [reflexivity|by destruct req1]. }
  destruct (Hkeep e) as [Hresp Hreq].
  split; [done|]. split; [done|]. split; by apply Hsame.
Qed.

End ApiFacts.


(** ** The add-vehicle form: answers, edits, timers *)

Section AddVehicleAnswers.

Import AddVehicle.

Lemma toasts_app (l k : list Effect) : toasts (l ++ k) = toasts l ++ toasts k.
Proof. unfold toasts. apply omap_app. Qed.

(** The page after a valid submit from an idle state. *)
Lemma afterSubmit_valid (fd : FormData) (errs : gmap string string) (clk : Z)
    (lg : list Effect) :
  Schema.isValid (Helpers.validateForm (toObject fd) validationRules) = true →
  afterSubmit
    {| ui := {| formData := fd; errors := errs;
                isSubmitting := false; isSuccess := false |};
       clock := clk; timers := []; log := lg |}
  = {| ui := {| formData := fd; errors := ∅;
                isSubmitting := true; isSuccess := false |};
       clock := clk; timers := [];
       log := lg ++ [AddVehicleRequest (vehicleDataOf fd)] |}.
Proof.
  intros Hvalid. unfold afterSubmit, dispatch, handleSubmit. cbn [ui formData].
  rewrite Hvalid. cbn [negb]. reflexivity.
Qed.

Lemma idle_flags (st : State) :
  submissionState st = Idle → isSubmitting st = false ∧ isSuccess st = false.
Proof.
  unfold submissionState. destruct (isSubmitting st), (isSuccess st); try discriminate.
  done.
Qed.

(** X10. On a page with no timer pending, a valid submission whose
    request is rejected brings the form back to Idle with its values
    intact: one request was issued, no timer
    is set, one error notification is raised, with the message of the
    server when the response carries one and ["Failed to add vehicle"]
    otherwise, and the error map holds the validation errors of the server
    when the response lists them (none otherwise). *)
Theorem rejected_submission_returns_to_idle
    (w : World) (error : Api.AxiosError) (latency : Z) :
  submissionState (ui w) = Idle →
  timers w = [] →
  Schema.isValid (Helpers.validateForm (toObject (formData (ui w))) validationRules) = true →
  submissionState (ui (afterRejection error latency w)) = Idle
  ∧ formData (ui (afterRejection error latency w)) = formData (ui w)
  ∧ timers (afterRejection error latency w) = []
  ∧ requests (log (afterRejection error latency w))
    = requests (log w) ++ [vehicleDataOf (formData (ui w))]
  ∧ toasts (log (afterRejection error latency w))
    = toasts (log w)
        ++ [ToastError (Schema.orElse (Api.responseMessage error) "Failed to add vehicle")]
  ∧ errors (ui (afterRejection error latency w))
    = match serverValidationErrors error with
      | Some errs => serverErrors errs
      | None => ∅
      end.
Proof.
  destruct w as [[fd errs sub suc] clk tms lg].
  cbn [ui timers formData clock log].
  intros [Hsub Hsuc]%idle_flags ->. cbn [isSubmitting isSuccess] in Hsub, Hsuc.
  subst sub suc. intros Hvalid.
  unfold afterRejection. rewrite (afterSubmit_valid _ _ _ _ Hvalid). clear Hvalid.
  rewrite advance_without_timers by reflexivity.
  generalize (vehicleDataOf fd). intros payload.
  unfold dispatch, handleSubmit_rejected, serverValidationErrors, serverErrors.
  cbn [ui clock timers log].
  destruct (Api.response error) as [r|];
    [destruct (Api.error (Api.data r)) as [info|];
     [destruct (Api.validationErrors info) as [l|]|]|];
    cbn; rewrite !requests_app, !toasts_app; cbn; rewrite ?app_nil_r;
    repeat apply conj; reflexivity.
Qed.

(** X12. On a page with no timer pending, a valid submission that is
    answered without the success flag ends silently: the form is Idle
    again with its values, no notification
    is raised, no timer is set and the success state is never entered. *)
Theorem unsuccessful_answer_is_silent
    (w : World) (response : Api.Response) (latency : Z) :
  submissionState (ui w) = Idle →
  timers w = [] →
  Schema.isValid (Helpers.validateForm (toObject (formData (ui w))) validationRules) = true →
  Api.success (Api.data response) = false →
  submissionState (ui (afterResponse response latency w)) = Idle
  ∧ formData (ui (afterResponse response latency w)) = formData (ui w)
  ∧ timers (afterResponse response latency w) = []
  ∧ toasts (log (afterResponse response latency w)) = toasts (log w)
  ∧ ∀ dt, submissionState (ui (advance dt (afterResponse response latency w))) = Idle
          ∧ formData (ui (advance dt (afterResponse response latency w)))
            = formData (ui w).
Proof.
  destruct w as [[fd errs sub suc] clk tms lg].
  cbn [ui timers formData clock log].
  intros [Hsub Hsuc]%idle_flags ->. cbn [isSubmitting isSuccess] in Hsub, Hsuc.
  subst sub suc. intros Hvalid Hfail.
  unfold afterResponse. rewrite (afterSubmit_valid _ _ _ _ Hvalid). clear Hvalid.
  rewrite advance_without_timers by reflexivity.
  generalize (vehicleDataOf fd). intros payload.
  unfold dispatch, handleSubmit_fulfilled. rewrite Hfail.
  cbn. rewrite !toasts_app. cbn. rewrite !app_nil_r.
  repeat apply conj; try reflexivity.
  intros dt. split; reflexivity.
Qed.

(** X11. The error map built from the validation errors of the server holds,
    for each path, the message of the last entry with that path, and
    nothing for a path that no entry names; an entry with the path
    [__proto__] leaves no trace in it. *)
Theorem serverErrors_lookup (errs : list Api.ValidationError) (path : string) :
  serverErrors errs !! path
  = if bool_decide (path = "__proto__") then None
    else Api.message <$> lastErrorFor path errs.
Proof.
  unfold serverErrors, lastErrorFor.
  induction errs as [|e errs IH] using rev_ind; [by case_bool_decide|].
  rewrite foldl_app, filter_app, filter_cons, filter_nil. cbn [foldl].
  unfold setProperty at 1.
  destruct (decide (Api.path e = path)) as [<-|Hne].
  - case_bool_decide as Hproto; [exact IH|].
    by rewrite lookup_insert_eq, last_snoc.
  - rewrite app_nil_r.
    destruct (bool_decide (Api.path e = "__proto__")); [exact IH|].
    rewrite lookup_insert_ne by done. exact IH.
Qed.

End AddVehicleAnswers.

(** The form of the cycle, answered with a rejection. *)
Lemma rejected_submission_returns_to_idle_witness :
  AddVehicle.submissionState (AddVehicle.ui acceptedVehicle) = AddVehicle.Idle
  ∧ AddVehicle.timers acceptedVehicle = []
  ∧ Schema.isValid
      (Helpers.validateForm
         (AddVehicle.toObject (AddVehicle.formData (AddVehicle.ui acceptedVehicle)))
         AddVehicle.validationRules) = true
  ∧ AddVehicle.submissionState
      (AddVehicle.ui (afterRejection notFoundError 150 acceptedVehicle))
    = AddVehicle.Idle
  ∧ AddVehicle.formData (AddVehicle.ui (afterRejection notFoundError 150 acceptedVehicle))
    = AddVehicle.formData (AddVehicle.ui acceptedVehicle).
Proof.
  assert (Schema.isValid
      (Helpers.validateForm
         (AddVehicle.toObject (AddVehicle.formData (AddVehicle.ui acceptedVehicle)))
         AddVehicle.validationRules) = true) as Hvalid by (vm_compute; reflexivity).
  destruct (rejected_submission_returns_to_idle acceptedVehicle notFoundError 150
              eq_refl eq_refl Hvalid) as (H1 & H2 & _).
  split; [reflexivity|]. split; [reflexivity|]. split; [exact Hvalid|].
  split; [exact H1 | exact H2].
Defined.

(** The form of the cycle, answered without the success flag. *)
Lemma unsuccessful_answer_is_silent_witness :
  AddVehicle.submissionState (AddVehicle.ui acceptedVehicle) = AddVehicle.Idle
  ∧ AddVehicle.timers acceptedVehicle = []
  ∧ Schema.isValid
      (Helpers.validateForm
         (AddVehicle.toObject (AddVehicle.formData (AddVehicle.ui acceptedVehicle)))
         AddVehicle.validationRules) = true
  ∧ Api.success (Api.data (Api.Build_Response 200 (Api.Build_ResponseData false None)))
    = false
  ∧ toasts
      (AddVehicle.log
         (afterResponse (Api.Build_Response 200 (Api.Build_ResponseData false None))
            150 acceptedVehicle))
    = toasts (AddVehicle.log acceptedVehicle).
Proof.
  assert (Schema.isValid
      (Helpers.validateForm
         (AddVehicle.toObject (AddVehicle.formData (AddVehicle.ui acceptedVehicle)))
         AddVehicle.validationRules) = true) as Hvalid by (vm_compute; reflexivity).
  destruct (unsuccessful_answer_is_silent acceptedVehicle
              (Api.Build_Response 200 (Api.Build_ResponseData false None)) 150
              eq_refl eq_refl Hvalid eq_refl) as (_ & _ & _ & H & _).
  split; [reflexivity|]. split; [reflexivity|]. split; [exact Hvalid|].
  split; [reflexivity | exact H].
Defined.

(** ** Editing the forms *)

Section Edits.

(** X13. An edit of an input of the add-vehicle form writes the value of
    that input and leaves the other two alone; the error shown for that
    input goes away, the errors of all other keys stay; the success state
    ends, the submitting flag is kept, and nothing else happens. *)
Theorem handleInputChange_edits_one_field
    (f : AddVehicle.Field) (value : string) (st : AddVehicle.State) :
  let st' := (AddVehicle.handleInputChange f value st).1 in
  AddVehicle.getFormField f (AddVehicle.formData st') = value
  ∧ (∀ g, g ≠ f →
       AddVehicle.getFormField g (AddVehicle.formData st')
       = AddVehicle.getFormField g (AddVehicle.formData st))
  ∧ AddVehicle.hasError (AddVehicle.errors st') (AddVehicle.fieldName f) = false
  ∧ (∀ key, key ≠ AddVehicle.fieldName f →
       AddVehicle.errors st' !! key = AddVehicle.errors st !! key)
  ∧ AddVehicle.isSuccess st' = false
  ∧ AddVehicle.isSubmitting st' = AddVehicle.isSubmitting st
  ∧ (AddVehicle.handleInputChange f value st).2 = [].
Proof.
  destruct st as [fd errs sub suc]. cbv zeta.
  unfold AddVehicle.handleInputChange. cbn [AddVehicle.errors AddVehicle.isSuccess].
  destruct (AddVehicle.hasError errs (AddVehicle.fieldName f)) eqn:Herr, suc;
    cbn; (split; [by destruct f|]); (split; [by intros g Hg; destruct f, g|]);
    (split; [unfold AddVehicle.hasError; rewrite ?lookup_insert_eq; done|]);
    (split; [intros key Hkey; by rewrite ?lookup_insert_ne|]); done.
Qed.

(** X14. An edit of an input of the search form writes the value of that
    input and leaves the other three alone; the error shown for that input
    goes away, the errors of all other keys stay; the results of an
    earlier search are dropped, and nothing else happens. *)
Theorem handleSearchInputChange_edits_one_field
    (f : SearchBooking.Field) (value : string) (st : SearchBooking.State) :
  let st' := (SearchBooking.handleSearchInputChange f value st).1 in
  SearchBooking.searchData st'
  = SearchBooking.setField f value (SearchBooking.searchData st)
  ∧ SearchBooking.hasError (SearchBooking.searchErrors st') (SearchBooking.fieldName f)
    = false
  ∧ (∀ key, key ≠ SearchBooking.fieldName f →
       SearchBooking.searchErrors st' !! key = SearchBooking.searchErrors st !! key)
  ∧ SearchBooking.hasSearched st' = false
  ∧ SearchBooking.availableVehicles st'
    = (if SearchBooking.hasSearched st then [] else SearchBooking.availableVehicles st)
  ∧ SearchBooking.isSearching st' = SearchBooking.isSearching st
  ∧ (SearchBooking.handleSearchInputChange f value st).2 = [].
Proof.
  destruct st as [sd errs searching vehicles searched]. cbv zeta.
  unfold SearchBooking.handleSearchInputChange.
  cbn [SearchBooking.searchErrors SearchBooking.hasSearched].
  destruct (SearchBooking.hasError errs (SearchBooking.fieldName f)) eqn:Herr, searched;
    cbn; (split; [done|]);
    (split; [unfold SearchBooking.hasError; rewrite ?lookup_insert_eq; done|]);
    (split; [intros key Hkey; by rewrite ?lookup_insert_ne|]); done.
Qed.

End Edits.

(** ** The search form: the search itself *)

Section SearchRuns.

Import SearchBooking.

Context (parseDate : string → jsnum) (now : jsnum) (toISOString : jsnum → string).

(** The pincodes of a form that passes the schema validation are six
    digits each. *)
Lemma valid_search_pincodes (sd : SearchData) :
  Schema.isValid
    (Helpers.validateForm (toObject sd) (searchValidationRules parseDate now)) = true →
  sixDigits (fromPincode sd) = true ∧ sixDigits (toPincode sd) = true.
Proof.
  intros Hvalid%validateForm_isValid.
  assert (∀ field rule value,
            searchValidationRules parseDate now !! field = Some rule →
            field ≠ "__proto__" →
            getField (toObject sd) field = VStr value →
            Schema.required rule = true →
            Schema.minLength rule = None →
            Schema.maxLength rule = None →
            Schema.pattern rule = Some sixDigits →
            sixDigits value = true) as Hfield.
  { intros field rule value Hrule Hname Hvalue Hreq Hmin Hmax Hpat.
    pose proof (validateForm_lookup (toObject sd) (searchValidationRules parseDate now)
                  field) as Herr.
    rewrite Hvalid, lookup_empty in Herr.
    rewrite (fieldError_outcome _ _ field rule Hrule Hname), Hvalue in Herr.
    unfold structuralChecks, requiredCheck, patternCheck, minLengthCheck,
      maxLengthCheck in Herr.
    rewrite Hreq, Hmin, Hmax, Hpat in Herr. cbn [andb negb toString firstError] in Herr.
    destruct (negb (truthy (VStr value)) || trimsToEmpty (VStr value));
      [discriminate Herr|].
    rewrite andb_false_r in Herr.
    destruct (sixDigits value); [reflexivity | discriminate Herr]. }
  split.
  - eapply (Hfield "fromPincode"); (reflexivity || discriminate).
  - eapply (Hfield "toPincode"); (reflexivity || discriminate).
Qed.

Lemma sixDigits_trim (s : string) : sixDigits s = true → JsString.trim s = s.
Proof.
  unfold sixDigits. intros [_ Hd]%andb_true_iff.
  rewrite allDigits_agree in Hd. by apply allDigits_trim.
Qed.

(** X15. A search that passes the schema validation, between two different
    pincodes and for a start time that is a date, issues exactly one
    request and raises no notification: the request carries the two
    pincodes as they were typed (trimming changes nothing in six digits),
    the start time in ISO form and the capacity as [parseInt] reads it; the
    form is searching, its errors and its old results are cleared. *)
Theorem valid_search_issues_one_request (st : State) :
  Schema.isValid
    (Helpers.validateForm (toObject (searchData st)) (searchValidationRules parseDate now))
    = true →
  fromPincode (searchData st) ≠ toPincode (searchData st) →
  JsNum.isNaN (parseDate (startTime (searchData st))) = false →
  handleSearch parseDate now toISOString st
  = (setAvailableVehicles [] (setSearchErrors ∅ (setIsSearching true st)),
     [AvailableVehiclesRequest
        {| paramCapacityRequired := JsNum.parseInt (capacityRequired (searchData st));
           paramFromPincode := fromPincode (searchData st);
           paramToPincode := toPincode (searchData st);
           paramStartTime := toISOString (parseDate (startTime (searchData st))) |}])
  ∧ length (requests (handleSearch parseDate now toISOString st).2) = 1%nat
  ∧ errorToasts (handleSearch parseDate now toISOString st).2 = [].
Proof.
  intros Hvalid Hdiff Hdate.
  destruct (valid_search_pincodes _ Hvalid) as [Hfrom%sixDigits_trim Hto%sixDigits_trim].
  assert (handleSearch parseDate now toISOString st
  = (setAvailableVehicles [] (setSearchErrors ∅ (setIsSearching true st)),
     [AvailableVehiclesRequest
        {| paramCapacityRequired := JsNum.parseInt (capacityRequired (searchData st));
           paramFromPincode := fromPincode (searchData st);
           paramToPincode := toPincode (searchData st);
           paramStartTime := toISOString (parseDate (startTime (searchData st))) |}]))
    as Hrun.
  { unfold handleSearch. rewrite Hvalid. cbn [negb]. clear Hvalid.
    unfold JsString.eqb. rewrite bool_decide_eq_false_2 by exact Hdiff.
    rewrite Hdate, Hfrom, Hto. reflexivity. }
  rewrite Hrun. clear Hvalid. split; [reflexivity|]. split; reflexivity.
Qed.

(** X16. The schema validation lets a start time pass that is not a date
    (the comparison of an invalid date is false), and the search then
    fails on its own, before any request: the failure is logged, the
    notification is ["Failed to search vehicles"], and the form ends as
    after a search without results. *)
Theorem undated_search_fails_before_request (st : State) :
  Schema.isValid
    (Helpers.validateForm (toObject (searchData st)) (searchValidationRules parseDate now))
    = true →
  fromPincode (searchData st) ≠ toPincode (searchData st) →
  JsNum.isNaN (parseDate (startTime (searchData st))) = true →
  startTimeCheck parseDate now (VStr (startTime (searchData st))) (toObject (searchData st))
  = None
  ∧ handleSearch parseDate now toISOString st
    = (setIsSearching false
         (setHasSearched true
            (setAvailableVehicles [] (setSearchErrors ∅ (setIsSearching true st)))),
       [ConsoleError; ToastError "Failed to search vehicles"])
  ∧ requests (handleSearch parseDate now toISOString st).2 = [].
Proof.
  intros Hvalid Hdiff Hdate.
  assert (handleSearch parseDate now toISOString st
    = (setIsSearching false
         (setHasSearched true
            (setAvailableVehicles [] (setSearchErrors ∅ (setIsSearching true st)))),
       [ConsoleError; ToastError "Failed to search vehicles"])) as Hrun.
  { unfold handleSearch. rewrite Hvalid. cbn [negb]. clear Hvalid.
    unfold JsString.eqb. rewrite bool_decide_eq_false_2 by exact Hdiff.
    rewrite Hdate. reflexivity. }
  rewrite Hrun. clear Hvalid. split; [|split; reflexivity].
  unfold startTimeCheck, dateOf.
  destruct (parseDate (startTime (searchData st))); [reflexivity | discriminate Hdate ..].
Qed.

End SearchRuns.

(** The witness of X15: a search from 110001 to 400001. *)
Lemma valid_search_issues_one_request_witness :
  Schema.isValid
    (Helpers.validateForm
       (SearchBooking.toObject (SearchBooking.searchData routeSearch))
       (SearchBooking.searchValidationRules SearchBooking.parseDateTimeLocal sampleNow))
    = true
  ∧ SearchBooking.fromPincode (SearchBooking.searchData routeSearch)
    ≠ SearchBooking.toPincode (SearchBooking.searchData routeSearch)
  ∧ JsNum.isNaN
      (SearchBooking.parseDateTimeLocal
         (SearchBooking.startTime (SearchBooking.searchData routeSearch))) = false
  ∧ SearchBooking.errorToasts
      (SearchBooking.handleSearch SearchBooking.parseDateTimeLocal sampleNow
         sampleISOString routeSearch).2
    = [].
Proof.
  assert (Schema.isValid
    (Helpers.validateForm
       (SearchBooking.toObject (SearchBooking.searchData routeSearch))
       (SearchBooking.searchValidationRules SearchBooking.parseDateTimeLocal sampleNow))
    = true) as Hvalid by (vm_compute; reflexivity).
  assert (SearchBooking.fromPincode (SearchBooking.searchData routeSearch)
    ≠ SearchBooking.toPincode (SearchBooking.searchData routeSearch)) as Hdiff
    by discriminate.
  assert (JsNum.isNaN
      (SearchBooking.parseDateTimeLocal
         (SearchBooking.startTime (SearchBooking.searchData routeSearch))) = false)
    as Hdate by (vm_compute; reflexivity).
  split; [exact Hvalid|]. split; [exact Hdiff|]. split; [exact Hdate|].
  exact (proj2 (proj2 (valid_search_issues_one_request SearchBooking.parseDateTimeLocal
                         sampleNow sampleISOString routeSearch Hvalid Hdiff Hdate))).
Defined.

(** The witness of X16: the same search for the start time "tomorrow". *)
Lemma undated_search_fails_before_request_witness :
  Schema.isValid
    (Helpers.validateForm
       (SearchBooking.toObject (SearchBooking.searchData undatedSearch))
       (SearchBooking.searchValidationRules SearchBooking.parseDateTimeLocal sampleNow))
    = true
  ∧ SearchBooking.fromPincode (SearchBooking.searchData undatedSearch)
    ≠ SearchBooking.toPincode (SearchBooking.searchData undatedSearch)
  ∧ JsNum.isNaN
      (SearchBooking.parseDateTimeLocal
         (SearchBooking.startTime (SearchBooking.searchData undatedSearch))) = true
  ∧ SearchBooking.requests
      (SearchBooking.handleSearch SearchBooking.parseDateTimeLocal sampleNow
         sampleISOString undatedSearch).2
    = [].
Proof.
  assert (Schema.isValid
    (Helpers.validateForm
       (SearchBooking.toObject (SearchBooking.searchData undatedSearch))
       (SearchBooking.searchValidationRules SearchBooking.parseDateTimeLocal sampleNow))
    = true) as Hvalid by (vm_compute; reflexivity).
  assert (SearchBooking.fromPincode (SearchBooking.searchData undatedSearch)
    ≠ SearchBooking.toPincode (SearchBooking.searchData undatedSearch)) as Hdiff
    by discriminate.
  assert (JsNum.isNaN
      (SearchBooking.parseDateTimeLocal
         (SearchBooking.startTime (SearchBooking.searchData undatedSearch))) = true)
    as Hdate by (vm_compute; reflexivity).
  split; [exact Hvalid|]. split; [exact Hdiff|]. split; [exact Hdate|].
  exact (proj2 (proj2 (undated_search_fails_before_request SearchBooking.parseDateTimeLocal
                         sampleNow sampleISOString undatedSearch Hvalid Hdiff Hdate))).
Defined.

(** ** The numbers of a request *)

Section RequestNumbers.

Import JsNum.

Lemma roundHalfEven_floor (num den : Z) : num / den ≤ roundHalfEven num den.
Proof.
  unfold roundHalfEven.
  destruct (2 * (num mod den) ?= den); [destruct (Z.even _)|..]; lia.
Qed.

(** Rounding does not leave the binade downwards. *)
Lemma roundUnits_lower (num : Z) : 0 < num → 2 ^ Z.log2 num ≤ roundUnits num 1.
Proof.
  intros Hnum. unfold roundUnits. rewrite Z.div_1_r, Z.mul_1_l.
  pose proof (Z.log2_nonneg num) as Hlog.
  set (shift := Z.max (Z.log2 num + 1 - 53) 0).
  assert (0 ≤ shift ≤ Z.log2 num) as Hshift by (unfold shift; lia).
  clearbody shift.
  assert (0 < 2 ^ shift) as Hpow by (apply Z.pow_pos_nonneg; lia).
  pose proof (roundHalfEven_floor num (2 ^ shift)) as Hfloor.
  assert (2 ^ (Z.log2 num - shift) ≤ num / 2 ^ shift) as Hdiv.
  { rewrite Z.pow_sub_r by lia. apply Z.div_le_mono; [lia|].
    apply Z.log2_spec. lia. }
  replace (2 ^ Z.log2 num) with (2 ^ (Z.log2 num - shift) * 2 ^ shift)
    by (rewrite <- Z.pow_add_r by lia; f_equal; lia).
  apply Z.mul_le_mono_nonneg_r; lia.
Qed.

(** A whole number from [2^53] on is still above every smaller one after
    rounding. *)
Lemma ofZ_large (v hi : Z) : 2 ^ 53 ≤ v → 0 ≤ hi < 2 ^ 53 → ltb (ofZ hi) (ofZ v) = true.
Proof.
  intros Hv Hhi. rewrite (ofZ_exact hi) by done.
  unfold ofZ, ofRatio, ofUnits.
  assert (0 < 2 ^ 53) as Hpos by (apply Z.pow_pos_nonneg; lia).
  replace (v <? 0) with false by (symmetry; apply Z.ltb_ge; lia).
  rewrite Z.abs_eq by lia.
  destruct (overflow <=? roundUnits (v * one) 1); [reflexivity|].
  cbn [ltb]. apply Z.ltb_lt.
  pose proof one_pos as Hone.
  assert (0 < v * one) as Hnum by nia.
  pose proof (roundUnits_lower (v * one) Hnum) as Hlow.
  assert (2 ^ 53 * one ≤ 2 ^ Z.log2 (v * one)) as Hbin.
  { unfold one at 1. rewrite <- Z.pow_add_r by lia.
    apply Z.pow_le_mono_r; [lia|].
    apply Z.log2_le_pow2; [lia|]. rewrite Z.pow_add_r by lia. fold one. nia. }
  nia.
Qed.

(** The order of whole numbers below [2^53] is the order of the numbers. *)
Lemma ltb_ofZ (x y : Z) : 0 ≤ x < 2 ^ 53 → 0 ≤ y < 2 ^ 53 → ltb (ofZ x) (ofZ y) = (x <? y).
Proof.
  intros Hx Hy. rewrite (ofZ_exact x), (ofZ_exact y) by done. cbn [ltb].
  pose proof one_pos.
  destruct (Z.ltb_spec x y), (Z.ltb_spec (x * one) (y * one)); (reflexivity || nia).
Qed.

Context (data : gmap string jsval) (rules : gmap string Schema.FieldRule).

(** A required number field written in digits only, in a record that
    passes the validation: [Number] and [parseInt] read the same whole
    number from it, and it lies within the bounds of the rule. *)
Lemma digits_within_bounds (field : string) (rule : Schema.FieldRule) (s : string)
    (lo hi : Z) :
  Schema.isValid (Helpers.validateForm data rules) = true →
  rules !! field = Some rule →
  field ≠ "__proto__" →
  getField data field = VStr s →
  Schema.required rule = true →
  Schema.minLength rule = None →
  Schema.maxLength rule = None →
  Schema.pattern rule = None →
  Schema.type rule = Some "number" →
  Schema.min rule = Some (ofZ lo) →
  Schema.max rule = Some (ofZ hi) →
  0 ≤ lo < 2 ^ 53 → 0 ≤ hi < 2 ^ 53 →
  Helpers.allDigits s = true →
  ∃ v, lo ≤ v ≤ hi ∧ Number (VStr s) = ofZ v ∧ parseInt s = ofZ v.
Proof.
  intros Hvalid%validateForm_isValid Hrule Hname Hvalue Hreq Hmin Hmax Hpat Htype
    Hlo Hhi Hlob Hhib Hdigits.
  pose proof (validateForm_lookup data rules field) as Herr.
  rewrite Hvalid, lookup_empty in Herr. clear Hvalid.
  rewrite (fieldError_outcome _ _ field rule Hrule Hname), Hvalue in Herr.
  unfold structuralChecks, requiredCheck, patternCheck, minLengthCheck,
    maxLengthCheck, numberCheck in Herr.
  rewrite Hreq, Hmin, Hmax, Hpat, Htype, Hlo, Hhi in Herr.
  rewrite bool_decide_eq_true_2 in Herr by reflexivity.
  cbn [andb firstError Number] in Herr.
  destruct (negb (truthy (VStr s)) || trimsToEmpty (VStr s)) eqn:Hblank;
    [discriminate Herr|].
  assert (s ≠ EmptyString) as Hne.
  { intros ->. discriminate Hblank. }
  destruct (parseInt_of_digits s Hdigits Hne) as (v & Hv0 & _ & Hparse & Hnumber).
  rewrite Hnumber in Herr.
  exists v. split; [|by split].
  destruct (Z_lt_ge_dec v (2 ^ 53)) as [Hsmall|Hlarge].
  - rewrite andb_false_r in Herr.
    replace (isNaN (ofZ v)) with false in Herr by (by rewrite ofZ_exact by lia).
    unfold gtb in Herr. rewrite !ltb_ofZ in Herr by lia.
    destruct (Z.ltb_spec v lo); [discriminate Herr|].
    destruct (Z.ltb_spec hi v); [discriminate Herr|]. lia.
  - exfalso. rewrite andb_false_r in Herr.
    pose proof (ofZ_large v hi ltac:(lia) Hhib) as Hgt.
    pose proof (ofZ_large v lo ltac:(lia) Hlob) as Hge.
    unfold gtb in Herr. rewrite Hgt in Herr.
    destruct (ofZ v) as [| |n] eqn:Hn; [by rewrite ofZ_exact in Hge by lia|..].
    + cbn [isNaN] in Herr. by destruct (ltb (Inf negative) (ofZ lo)).
    + cbn [isNaN] in Herr. by destruct (ltb (Fin n) (ofZ lo)).
Qed.

End RequestNumbers.

(** X17. A valid add-vehicle form whose capacity and number of tyres are
    written in digits only sends the numbers that were validated: the
    request carries a capacity from 1 to 50000 and a number of tyres from
    2 to 18, the very numbers the validation read. *)
Theorem digits_form_sends_validated_numbers (st : AddVehicle.State) :
  Schema.isValid
    (Helpers.validateForm (AddVehicle.toObject (AddVehicle.formData st))
       AddVehicle.validationRules) = true →
  Helpers.allDigits (AddVehicle.capacityKg (AddVehicle.formData st)) = true →
  Helpers.allDigits (AddVehicle.tyres (AddVehicle.formData st)) = true →
  ∃ capacity tyres,
    1 ≤ capacity ≤ 50000 ∧ 2 ≤ tyres ≤ 18
    ∧ Number (VStr (AddVehicle.capacityKg (AddVehicle.formData st))) = JsNum.ofZ capacity
    ∧ Number (VStr (AddVehicle.tyres (AddVehicle.formData st))) = JsNum.ofZ tyres
    ∧ (AddVehicle.handleSubmit st).2
      = [AddVehicle.AddVehicleRequest
           {| AddVehicle.vehicleName :=
                JsString.trim (AddVehicle.name (AddVehicle.formData st));
              AddVehicle.vehicleCapacityKg := JsNum.ofZ capacity;
              AddVehicle.vehicleTyres := JsNum.ofZ tyres |}].
Proof.
  intros Hvalid Hcap Htyres.
  assert (2 ^ 16 < 2 ^ 53) as Hpow by (apply Z.pow_lt_mono_r; lia).
  change (2 ^ 16) with 65536 in Hpow.
  destruct (digits_within_bounds _ _ "capacityKg" _
              (AddVehicle.capacityKg (AddVehicle.formData st)) 1 50000 Hvalid
              eq_refl ltac:(discriminate) eq_refl eq_refl eq_refl eq_refl eq_refl
              eq_refl eq_refl eq_refl ltac:(lia) ltac:(lia) Hcap)
    as (c & Hc & Hcn & Hcp).
  destruct (digits_within_bounds _ _ "tyres" _
              (AddVehicle.tyres (AddVehicle.formData st)) 2 18 Hvalid
              eq_refl ltac:(discriminate) eq_refl eq_refl eq_refl eq_refl eq_refl
              eq_refl eq_refl eq_refl ltac:(lia) ltac:(lia) Htyres)
    as (t & Ht & Htn & Htp).
  exists c, t. split; [exact Hc|]. split; [exact Ht|].
  split; [exact Hcn|]. split; [exact Htn|].
  unfold AddVehicle.handleSubmit. rewrite Hvalid. clear Hvalid.
  cbn [negb]. rewrite Hcp, Htp. reflexivity.
Qed.

(** The witness of X17: the form of the cycle. *)
Lemma digits_form_sends_validated_numbers_witness :
  Schema.isValid
    (Helpers.validateForm
       (AddVehicle.toObject (AddVehicle.formData (AddVehicle.ui acceptedVehicle)))
       AddVehicle.validationRules) = true
  ∧ Helpers.allDigits
      (AddVehicle.capacityKg (AddVehicle.formData (AddVehicle.ui acceptedVehicle))) = true
  ∧ Helpers.allDigits
      (AddVehicle.tyres (AddVehicle.formData (AddVehicle.ui acceptedVehicle))) = true
  ∧ ∃ capacity tyres,
      1 ≤ capacity ≤ 50000 ∧ 2 ≤ tyres ≤ 18
      ∧ Number (VStr (AddVehicle.capacityKg
                        (AddVehicle.formData (AddVehicle.ui acceptedVehicle))))
        = JsNum.ofZ capacity
      ∧ Number (VStr (AddVehicle.tyres
                        (AddVehicle.formData (AddVehicle.ui acceptedVehicle))))
        = JsNum.ofZ tyres
      ∧ (AddVehicle.handleSubmit (AddVehicle.ui acceptedVehicle)).2
        = [AddVehicle.AddVehicleRequest
             {| AddVehicle.vehicleName :=
                  JsString.trim
                    (AddVehicle.name (AddVehicle.formData (AddVehicle.ui acceptedVehicle)));
                AddVehicle.vehicleCapacityKg := JsNum.ofZ capacity;
                AddVehicle.vehicleTyres := JsNum.ofZ tyres |}].
Proof.
  assert (Schema.isValid
    (Helpers.validateForm
       (AddVehicle.toObject (AddVehicle.formData (AddVehicle.ui acceptedVehicle)))
       AddVehicle.validationRules) = true) as Hvalid by (vm_compute; reflexivity).
  split; [exact Hvalid|]. split; [reflexivity|]. split; [reflexivity|].
  exact (digits_form_sends_validated_numbers (AddVehicle.ui acceptedVehicle)
           Hvalid eq_refl eq_refl).
Defined.

(** Outside the digits the two readings part: a capacity written ["1e3"]
    is validated as 1000 ([Number]) and sent as 1 ([parseInt]). *)
Lemma exponent_capacity_is_sent_as_its_mantissa :
  Schema.isValid
    (Helpers.validateForm (AddVehicle.toObject (AddVehicle.formData exponentCapacity))
       AddVehicle.validationRules) = true
  ∧ Number (VStr (AddVehicle.capacityKg (AddVehicle.formData exponentCapacity)))
    = JsNum.ofZ 1000
  ∧ AddVehicle.requests (AddVehicle.handleSubmit exponentCapacity).2
    = [{| AddVehicle.vehicleName := "Truck-001";
          AddVehicle.vehicleCapacityKg := JsNum.ofZ 1;
          AddVehicle.vehicleTyres := JsNum.ofZ 6 |}].
Proof. split; [|split]; vm_compute; reflexivity. Qed.
